(** * DomainFlow SDK for Node.js: a shallow embedding of [index.js]

    The development follows the source file top to bottom:

    - [JsString]: JavaScript strings as sequences of UTF-16 code units,
      strict equality, and the UTF-8 encoding Node applies when a string is
      handed to a byte-oriented primitive;
    - [SHA256] and [Crypto]: the digest behind
      [crypto.createHmac('sha256', _)];
    - [URLSearchParams]: the serializer used by [DomainsResource.list];
    - [Js]: the JavaScript values that travel through the gateway
      (request data, decoded bodies, errors), with ToBoolean, ToString and
      [JSON.stringify] on them;
    - [Fetch] and [Async]: what [fetch] takes and gives, and a small monad
      for code that may throw and may await [fetch];
    - the classes [DomainFlowError], [DomainFlow], [DomainsResource],
      [TenantsResource], [WebhooksResource] and [CertificatesResource];
    - [Spec] and [Fixture]: the wording of the specification where it is
      compared with the code, and the data of the closed examples.

    The properties come last, grouped by component: webhook signatures,
    the request gateway, construction, headers, the path of list domains. *)

From Stdlib Require Import Ascii String ZArith List Bool Lia SpecFloat.
Import ListNotations.

#[local] Set Warnings "-register-all".

Local Open Scope Z_scope.

(* ===================================================================== *)
(** ** JavaScript strings *)
(* ===================================================================== *)

Module JsString.

(** A JavaScript string is a finite sequence of 16-bit code units. *)
Definition js_string : Type := list Z.

(** Source literals are ASCII; [lit] turns a literal into code units. *)
Definition lit (s : string) : js_string :=
  map (fun a => Z.of_N (N_of_ascii a)) (list_ascii_of_string s).

(** [a === b] on two strings: same length and same code units. *)
Fixpoint strict_eq (a b : js_string) : bool :=
  match a, b with
  | [], [] => true
  | x :: a', y :: b' => (x =? y) && strict_eq a' b'
  | _, _ => false
  end.

(** Truthiness of a string: every string but the empty one. *)
Definition truthy (s : js_string) : bool :=
  match s with [] => false | _ :: _ => true end.

(** [Array.prototype.join] on already converted pieces. *)
Fixpoint join (sep : js_string) (parts : list js_string) : js_string :=
  match parts with
  | [] => []
  | [p] => p
  | p :: rest => p ++ sep ++ join sep rest
  end.

Definition is_high_surrogate (c : Z) : bool := (0xD800 <=? c) && (c <=? 0xDBFF).
Definition is_low_surrogate (c : Z) : bool := (0xDC00 <=? c) && (c <=? 0xDFFF).

(** UTF-8 bytes of one Unicode scalar value. *)
Definition utf8_of_code_point (cp : Z) : list Z :=
  if cp <? 0x80 then [cp]
  else if cp <? 0x800 then
    [Z.lor 0xC0 (Z.shiftr cp 6); Z.lor 0x80 (Z.land cp 0x3F)]
  else if cp <? 0x10000 then
    [Z.lor 0xE0 (Z.shiftr cp 12);
     Z.lor 0x80 (Z.land (Z.shiftr cp 6) 0x3F);
     Z.lor 0x80 (Z.land cp 0x3F)]
  else
    [Z.lor 0xF0 (Z.shiftr cp 18);
     Z.lor 0x80 (Z.land (Z.shiftr cp 12) 0x3F);
     Z.lor 0x80 (Z.land (Z.shiftr cp 6) 0x3F);
     Z.lor 0x80 (Z.land cp 0x3F)].

Definition replacement_character : Z := 0xFFFD.

(** The bytes a string contributes when it is written as UTF-8
    ([Buffer.from(s, 'utf8')], and the USVString conversion followed by
    UTF-8 encoding in the URL standard): surrogate pairs are combined,
    a lone surrogate becomes U+FFFD. *)
Fixpoint utf8_encode (s : js_string) : list Z :=
  match s with
  | [] => []
  | c :: rest =>
      if is_high_surrogate c then
        match rest with
        | d :: rest' =>
            if is_low_surrogate d then
              utf8_of_code_point
                (0x10000 + (c - 0xD800) * 0x400 + (d - 0xDC00))
                ++ utf8_encode rest'
            else utf8_of_code_point replacement_character ++ utf8_encode rest
        | [] => utf8_of_code_point replacement_character
        end
      else if is_low_surrogate c then
        utf8_of_code_point replacement_character ++ utf8_encode rest
      else utf8_of_code_point c ++ utf8_encode rest
  end.

(** Lowercase hexadecimal digit of a nibble, as a code unit. *)
Definition hex_digit (n : Z) : Z := if n <? 10 then 48 + n else 87 + n.

(** [buffer.toString('hex')]: two lowercase digits per byte. *)
Definition hex_of_byte (b : Z) : js_string :=
  [hex_digit (Z.shiftr b 4); hex_digit (Z.land b 15)].

Definition hex_encode (bytes : list Z) : js_string :=
  flat_map hex_of_byte bytes.

(** The action of [String.prototype.toUpperCase] on the ASCII range:
    [a]..[z] move to [A]..[Z], every other ASCII code unit is kept. *)
Definition is_ascii_lower (c : Z) : bool := (97 <=? c) && (c <=? 122).
Definition is_ascii_upper (c : Z) : bool := (65 <=? c) && (c <=? 90).
Definition is_ascii_alpha (c : Z) : bool := is_ascii_lower c || is_ascii_upper c.
Definition is_ascii_digit (c : Z) : bool := (48 <=? c) && (c <=? 57).

(** The digits of lowercase hexadecimal: [0]..[9] and [a]..[f]. *)
Definition is_lower_hex (c : Z) : bool :=
  is_ascii_digit c || ((97 <=? c) && (c <=? 102)).

Definition is_byte (b : Z) : Prop := 0 <= b < 256.

Definition ascii_upper (c : Z) : Z := if is_ascii_lower c then c - 32 else c.
Definition toUpperCase_ascii (s : js_string) : js_string := map ascii_upper s.

End JsString.

Import JsString.

(* ===================================================================== *)
(** ** SHA-256 (FIPS 180-4) over byte lists *)
(* ===================================================================== *)

Module SHA256.

Definition mask32 : Z := 0xFFFFFFFF.

(** 32-bit words are integers in [0, 2^32); additions wrap around. *)
Definition add32 (x y : Z) : Z := Z.land (x + y) mask32.
Definition not32 (x : Z) : Z := Z.lxor x mask32.
Definition rotr (n x : Z) : Z :=
  Z.lor (Z.shiftr x n) (Z.land (Z.shiftl x (32 - n)) mask32).

Definition ch (x y z : Z) : Z := Z.lxor (Z.land x y) (Z.land (not32 x) z).
Definition maj (x y z : Z) : Z :=
  Z.lxor (Z.lxor (Z.land x y) (Z.land x z)) (Z.land y z).
Definition big_sigma0 (x : Z) : Z := Z.lxor (Z.lxor (rotr 2 x) (rotr 13 x)) (rotr 22 x).
Definition big_sigma1 (x : Z) : Z := Z.lxor (Z.lxor (rotr 6 x) (rotr 11 x)) (rotr 25 x).
Definition small_sigma0 (x : Z) : Z := Z.lxor (Z.lxor (rotr 7 x) (rotr 18 x)) (Z.shiftr x 3).
Definition small_sigma1 (x : Z) : Z := Z.lxor (Z.lxor (rotr 17 x) (rotr 19 x)) (Z.shiftr x 10).

(** Round constants: the first 32 fractional bits of the cube roots of
    the first 64 primes. *)
Definition round_constants : list Z :=
  [ 0x428A2F98; 0x71374491; 0xB5C0FBCF; 0xE9B5DBA5;
    0x3956C25B; 0x59F111F1; 0x923F82A4; 0xAB1C5ED5;
    0xD807AA98; 0x12835B01; 0x243185BE; 0x550C7DC3;
    0x72BE5D74; 0x80DEB1FE; 0x9BDC06A7; 0xC19BF174;
    0xE49B69C1; 0xEFBE4786; 0x0FC19DC6; 0x240CA1CC;
    0x2DE92C6F; 0x4A7484AA; 0x5CB0A9DC; 0x76F988DA;
    0x983E5152; 0xA831C66D; 0xB00327C8; 0xBF597FC7;
    0xC6E00BF3; 0xD5A79147; 0x06CA6351; 0x14292967;
    0x27B70A85; 0x2E1B2138; 0x4D2C6DFC; 0x53380D13;
    0x650A7354; 0x766A0ABB; 0x81C2C92E; 0x92722C85;
    0xA2BFE8A1; 0xA81A664B; 0xC24B8B70; 0xC76C51A3;
    0xD192E819; 0xD6990624; 0xF40E3585; 0x106AA070;
    0x19A4C116; 0x1E376C08; 0x2748774C; 0x34B0BCB5;
    0x391C0CB3; 0x4ED8AA4A; 0x5B9CCA4F; 0x682E6FF3;
    0x748F82EE; 0x78A5636F; 0x84C87814; 0x8CC70208;
    0x90BEFFFA; 0xA4506CEB; 0xBEF9A3F7; 0xC67178F2 ].

(** Hash state: eight working words. *)
Record state := mk_state {
  wa : Z; wb : Z; wc : Z; wd : Z; we : Z; wf : Z; wg : Z; wh : Z
}.

Definition initial_state : state :=
  mk_state 0x6A09E667 0xBB67AE85 0x3C6EF372 0xA54FF53A
           0x510E527F 0x9B05688C 0x1F83D9AB 0x5BE0CD19.

(** Big-endian 32-bit word of four bytes, and back. *)
Definition word_of_bytes (b3 b2 b1 b0 : Z) : Z :=
  Z.lor (Z.lor (Z.shiftl b3 24) (Z.shiftl b2 16)) (Z.lor (Z.shiftl b1 8) b0).

Definition bytes_of_word (w : Z) : list Z :=
  [Z.land (Z.shiftr w 24) 255; Z.land (Z.shiftr w 16) 255;
   Z.land (Z.shiftr w 8) 255; Z.land w 255].

Fixpoint words_of_bytes (bytes : list Z) : list Z :=
  match bytes with
  | b3 :: b2 :: b1 :: b0 :: rest => word_of_bytes b3 b2 b1 b0 :: words_of_bytes rest
  | _ => []
  end.

(** Message schedule: [extend k w] appends [k] further words to [w]. *)
Fixpoint extend (k : nat) (w : list Z) : list Z :=
  match k with
  | O => w
  | S k' =>
      let t := length w in
      let at_back (i : nat) := nth (t - i) w 0 in
      let next :=
        add32 (add32 (small_sigma1 (at_back 2%nat)) (at_back 7%nat))
              (add32 (small_sigma0 (at_back 15%nat)) (at_back 16%nat)) in
      extend k' (w ++ [next])
  end.

Definition schedule (block : list Z) : list Z :=
  extend 48 (words_of_bytes block).

(** One of the 64 rounds. *)
Definition round (s : state) (kw : Z * Z) : state :=
  let (k, w) := kw in
  let t1 := add32 (add32 (add32 (wh s) (big_sigma1 (we s)))
                         (add32 (ch (we s) (wf s) (wg s)) k)) w in
  let t2 := add32 (big_sigma0 (wa s)) (maj (wa s) (wb s) (wc s)) in
  mk_state (add32 t1 t2) (wa s) (wb s) (wc s)
           (add32 (wd s) t1) (we s) (wf s) (wg s).

Definition add_state (s t : state) : state :=
  mk_state (add32 (wa s) (wa t)) (add32 (wb s) (wb t))
           (add32 (wc s) (wc t)) (add32 (wd s) (wd t))
           (add32 (we s) (we t)) (add32 (wf s) (wf t))
           (add32 (wg s) (wg t)) (add32 (wh s) (wh t)).

Definition compress (s : state) (block : list Z) : state :=
  add_state s (fold_left round (combine round_constants (schedule block)) s).

(** Padding: a [1] bit, zeros, and the bit length on 64 bits. *)
Definition length_bytes (bits : Z) : list Z :=
  map (fun i => Z.land (Z.shiftr bits (8 * i)) 255) [7; 6; 5; 4; 3; 2; 1; 0].

Definition pad (msg : list Z) : list Z :=
  let n := Z.of_nat (length msg) in
  msg ++ [0x80] ++ repeat 0 (Z.to_nat ((55 - n) mod 64)) ++ length_bytes (8 * n).

(** The padded message cut into [n] blocks of 64 bytes. *)
Fixpoint blocks (n : nat) (bytes : list Z) : list (list Z) :=
  match n with
  | O => []
  | S n' => firstn 64 bytes :: blocks n' (skipn 64 bytes)
  end.

Definition bytes_of_state (s : state) : list Z :=
  flat_map bytes_of_word
    [wa s; wb s; wc s; wd s; we s; wf s; wg s; wh s].

(** The 32-byte digest of a byte string. *)
Definition sha256 (msg : list Z) : list Z :=
  let padded := pad msg in
  bytes_of_state
    (fold_left compress (blocks (length padded / 64) padded) initial_state).

End SHA256.

(* ===================================================================== *)
(** ** Node's [crypto.createHmac('sha256', key)] (RFC 2104) *)
(* ===================================================================== *)

Module Crypto.

Definition block_size : nat := 64.

(** An [Hmac] object: the key block fixed at creation and the data fed
    so far. *)
Record Hmac := mk_hmac {
  key_block : list Z;
  data : list Z
}.

(** Keys longer than a block are hashed; the result is zero-padded to
    a full block. *)
Definition key_block_of (key : list Z) : list Z :=
  let k := if (block_size <? List.length key)%nat then SHA256.sha256 key else key in
  k ++ repeat 0 (block_size - List.length k).

(** [crypto.createHmac('sha256', secret)]; a string key is read as UTF-8. *)
Definition createHmac (secret : js_string) : Hmac :=
  mk_hmac (key_block_of (utf8_encode secret)) [].

(** [hmac.update(payload)]; a string is read as UTF-8. *)
Definition update (h : Hmac) (payload : js_string) : Hmac :=
  mk_hmac (key_block h) (data h ++ utf8_encode payload).

(** The bytes [hmac.digest()] returns: the outer hash over the inner one. *)
Definition digest_bytes (h : Hmac) : list Z :=
  let inner := SHA256.sha256 (map (Z.lxor 0x36) (key_block h) ++ data h) in
  SHA256.sha256 (map (Z.lxor 0x5C) (key_block h) ++ inner).

(** [hmac.digest('hex')]. *)
Definition digest_hex (h : Hmac) : js_string := hex_encode (digest_bytes h).

(** HMAC-SHA256 as RFC 2104 writes it, on bytes:
    [H((K0 xor opad) || H((K0 xor ipad) || text))]. *)
Definition ipad : Z := 0x36.
Definition opad : Z := 0x5C.

Definition HMAC_SHA256 (key text : list Z) : list Z :=
  let k0 := key_block_of key in
  SHA256.sha256
    (map (fun b => Z.lxor b opad) k0
       ++ SHA256.sha256 (map (fun b => Z.lxor b ipad) k0 ++ text)).

(** The signature a sender holding [secret] attaches to [payload]:
    HMAC-SHA256 of the two strings read as UTF-8, in lowercase
    hexadecimal. *)
Definition hmac_sha256_hex (secret payload : js_string) : js_string :=
  hex_encode (HMAC_SHA256 (utf8_encode secret) (utf8_encode payload)).

End Crypto.

(* ===================================================================== *)
(** ** [URLSearchParams] (WHATWG URL, application/x-www-form-urlencoded) *)
(* ===================================================================== *)

Module URLSearchParams.

(** The list of name/value pairs, in insertion order. *)
Definition t : Type := list (js_string * js_string).

(** [new URLSearchParams()]. *)
Definition new : t := [].

(** [params.append(name, value)]. *)
Definition append (q : t) (name value : js_string) : t := q ++ [(name, value)].

(** Bytes left as they are by the serializer: ASCII letters and digits,
    [*], [-], [.] and [_]. *)
Definition is_unreserved (b : Z) : bool :=
  is_ascii_alpha b || is_ascii_digit b
  || (b =? 0x2A) || (b =? 0x2D) || (b =? 0x2E) || (b =? 0x5F).

Definition upper_hex_digit (n : Z) : Z := if n <? 10 then 48 + n else 55 + n.

(** One byte of the serialization: a space becomes [+], other bytes
    outside the unreserved set become [%XX]. *)
Definition encode_byte (b : Z) : js_string :=
  if b =? 0x20 then [0x2B]
  else if is_unreserved b then [b]
  else [0x25; upper_hex_digit (Z.shiftr b 4); upper_hex_digit (Z.land b 15)].

Definition form_urlencode (s : js_string) : js_string :=
  flat_map encode_byte (utf8_encode s).

Definition serialize_pair (p : js_string * js_string) : js_string :=
  form_urlencode (fst p) ++ lit "=" ++ form_urlencode (snd p).

(** [params.toString()], also what a template literal embeds. *)
Definition toString (q : t) : js_string :=
  join (lit "&") (map serialize_pair q).

End URLSearchParams.

(* ===================================================================== *)
(** ** JavaScript values and errors *)
(* ===================================================================== *)

Module Js.

(** A Number: its IEEE-754 binary64 value together with the text that
    [Number.prototype.toString] prints for it.  The printing algorithm
    belongs to the engine, so the text travels with the value. *)
Record number := mk_number {
  ieee : spec_float;
  number_text : js_string
}.

(** The values that occur as request data and as decoded bodies. *)
Inductive value : Type :=
| VUndefined
| VNull
| VBool (b : bool)
| VNumber (x : number)
| VString (s : js_string)
| VArray (elements : list value)
| VObject (properties : list (js_string * value)).

(** An [Error] that is not a [DomainFlowError]: its [name]
    ([Error], [TypeError], [SyntaxError], ...) and its [message]. *)
Record error := mk_error {
  error_name : js_string;
  error_message : js_string
}.

Definition TypeError (message : js_string) : error := mk_error (lit "TypeError") message.

(** ToBoolean. *)
Definition number_truthy (x : number) : bool :=
  match ieee x with
  | S754_zero _ | S754_nan => false
  | _ => true
  end.

Definition truthy (v : value) : bool :=
  match v with
  | VUndefined | VNull => false
  | VBool b => b
  | VNumber x => number_truthy x
  | VString s => JsString.truthy s
  | VArray _ | VObject _ => true
  end.

(** [a || b]. *)
Definition or_else (a b : value) : value := if truthy a then a else b.

Definition of_option_string (o : option js_string) : value :=
  match o with Some s => VString s | None => VUndefined end.

(** Own property lookup on an object's property list. *)
Fixpoint own_property (properties : list (js_string * value)) (key : js_string)
  : option value :=
  match properties with
  | [] => None
  | (k, v) :: rest => if strict_eq k key then Some v else own_property rest key
  end.

(** [json.error], for [json] a decoded body: reading a property of
    [null] or [undefined] throws; an object answers with its own
    property; every other value, and an object without the property,
    goes to a prototype that has no [error] and answers [undefined]. *)
Definition get_error (json : value) : error + value :=
  match json with
  | VNull =>
      inl (TypeError (lit "Cannot read properties of null (reading 'error')"))
  | VUndefined =>
      inl (TypeError (lit "Cannot read properties of undefined (reading 'error')"))
  | VObject properties =>
      inr (match own_property properties (lit "error") with
           | Some v => v
           | None => VUndefined
           end)
  | _ => inr VUndefined
  end.

(** ToString, as applied by the [Error] constructor to its argument.
    An object converts through [Object.prototype.toString] unless an
    own [toString] property (never callable in these values) hides it,
    in which case the conversion throws; an array joins its elements
    with commas, [null] and [undefined] counting as empty. *)
Fixpoint ToString (v : value) : error + js_string :=
  match v with
  | VUndefined => inr (lit "undefined")
  | VNull => inr (lit "null")
  | VBool true => inr (lit "true")
  | VBool false => inr (lit "false")
  | VNumber x => inr (number_text x)
  | VString s => inr s
  | VArray elements =>
      let fix pieces (l : list value) : error + list js_string :=
        match l with
        | [] => inr []
        | x :: rest =>
            match (match x with
                   | VUndefined | VNull => inr []
                   | _ => ToString x
                   end) with
            | inl e => inl e
            | inr s => match pieces rest with
                       | inl e => inl e
                       | inr ss => inr (s :: ss)
                       end
            end
        end in
      match pieces elements with
      | inl e => inl e
      | inr ss => inr (join (lit ",") ss)
      end
  | VObject properties =>
      match own_property properties (lit "toString") with
      | Some _ => inl (TypeError (lit "Cannot convert object to primitive value"))
      | None => inr (lit "[object Object]")
      end
  end.

(** QuoteJSONString: the string between double quotes, with the short
    escapes, [\u00xx] for other control characters and [\udxxx] for a
    surrogate that has no partner. *)
Definition unicode_escape (c : Z) : js_string :=
  [0x5C; 0x75;
   hex_digit (Z.land (Z.shiftr c 12) 15); hex_digit (Z.land (Z.shiftr c 8) 15);
   hex_digit (Z.land (Z.shiftr c 4) 15); hex_digit (Z.land c 15)].

Definition quote_unit (c : Z) : js_string :=
  if c =? 0x08 then [0x5C; 0x62]
  else if c =? 0x09 then [0x5C; 0x74]
  else if c =? 0x0A then [0x5C; 0x6E]
  else if c =? 0x0C then [0x5C; 0x66]
  else if c =? 0x0D then [0x5C; 0x72]
  else if c =? 0x22 then [0x5C; 0x22]
  else if c =? 0x5C then [0x5C; 0x5C]
  else if c <? 0x20 then unicode_escape c
  else [c].

Fixpoint quote_units (s : js_string) : js_string :=
  match s with
  | [] => []
  | c :: rest =>
      if is_high_surrogate c then
        match rest with
        | d :: rest' =>
            if is_low_surrogate d then c :: d :: quote_units rest'
            else unicode_escape c ++ quote_units rest
        | [] => unicode_escape c
        end
      else if is_low_surrogate c then unicode_escape c ++ quote_units rest
      else quote_unit c ++ quote_units rest
  end.

Definition QuoteJSONString (s : js_string) : js_string :=
  [0x22] ++ quote_units s ++ [0x22].

Definition number_finite (x : number) : bool :=
  match ieee x with
  | S754_zero _ | S754_finite _ _ _ => true
  | _ => false
  end.

(** [JSON.stringify(v)] without replacer or indentation; [None] stands
    for the result [undefined].  Inside an array [undefined] is written
    [null]; inside an object the property is left out. *)
Fixpoint JSON_stringify (v : value) : option js_string :=
  match v with
  | VUndefined => None
  | VNull => Some (lit "null")
  | VBool true => Some (lit "true")
  | VBool false => Some (lit "false")
  | VNumber x => Some (if number_finite x then number_text x else lit "null")
  | VString s => Some (QuoteJSONString s)
  | VArray elements =>
      let fix items (l : list value) : list js_string :=
        match l with
        | [] => []
        | x :: rest =>
            match JSON_stringify x with
            | Some s => s
            | None => lit "null"
            end :: items rest
        end in
      Some (lit "[" ++ join (lit ",") (items elements) ++ lit "]")
  | VObject properties =>
      let fix members (l : list (js_string * value)) : list js_string :=
        match l with
        | [] => []
        | (k, x) :: rest =>
            match JSON_stringify x with
            | Some s => (QuoteJSONString k ++ lit ":" ++ s) :: members rest
            | None => members rest
            end
        end in
      Some (lit "{" ++ join (lit ",") (members properties) ++ lit "}")
  end.

End Js.

(* ===================================================================== *)
(** ** [class DomainFlowError extends Error] *)
(* ===================================================================== *)

Module DomainFlowError.

Record t := mk {
  message : js_string;
  name : js_string;
  statusCode : option Z;   (* [None] is [null] *)
  response : Js.value      (* [Js.VNull] is [null] *)
}.

(** [new DomainFlowError(message, statusCode, response)].
    [super(message)] converts a defined message with ToString, which
    can throw; an undefined one leaves the inherited empty message. *)
Definition constructor (message : Js.value) (statusCode : option Z)
           (response : Js.value) : Js.error + t :=
  match (match message with
         | Js.VUndefined => inr []
         | _ => Js.ToString message
         end) with
  | inl e => inl e
  | inr m => inr (mk m (lit "DomainFlowError") statusCode response)
  end.

End DomainFlowError.

(* ===================================================================== *)
(** ** The global [fetch] *)
(* ===================================================================== *)

Module Fetch.

(** The [options] object handed to [fetch]. *)
Record RequestInit := mk_init {
  method : js_string;
  headers : list (js_string * js_string);
  body : option js_string        (* [None]: no [body] property *)
}.

(** What the code reads from a response: its status and the outcome of
    [response.json()], a decoded value or the error it rejects with. *)
Record Response := mk_response {
  status : Z;
  json : Js.error + Js.value
}.

(** [response.ok]: the status is in the range 200 to 299. *)
Definition ok (r : Response) : bool := (200 <=? status r) && (status r <=? 299).

(** A header of the [headers] object literal. *)
Fixpoint header (hs : list (js_string * js_string)) (key : js_string)
  : option js_string :=
  match hs with
  | [] => None
  | (k, v) :: rest => if strict_eq k key then Some v else header rest key
  end.

End Fetch.

(* ===================================================================== *)
(** ** Code that throws and awaits [fetch] *)
(* ===================================================================== *)

Module Async.

(** What a [catch] clause can receive: a [DomainFlowError], or an error
    of another class ([error instanceof DomainFlowError] is the test of
    the constructor). *)
Inductive thrown : Type :=
| OtherError (e : Js.error)
| GatewayError (e : DomainFlowError.t).

Definition instanceof_DomainFlowError (e : thrown) : bool :=
  match e with GatewayError _ => true | OtherError _ => false end.

(** [error.message]. *)
Definition message_of (e : thrown) : js_string :=
  match e with
  | OtherError e => Js.error_message e
  | GatewayError e => DomainFlowError.message e
  end.

(** A computation returns, throws, or calls [fetch] and goes on with
    what [fetch] settles to: a rejection or a response. *)
Inductive prog (A : Type) : Type :=
| Ret (a : A)
| Throw (e : thrown)
| AwaitFetch (url : js_string) (init : Fetch.RequestInit)
        (k : Js.error + Fetch.Response -> prog A).

Arguments Ret {A} a.
Arguments Throw {A} e.
Arguments AwaitFetch {A} url init k.

Fixpoint bind {A B : Type} (p : prog A) (f : A -> prog B) : prog B :=
  match p with
  | Ret a => f a
  | Throw e => Throw e
  | AwaitFetch url init k => AwaitFetch url init (fun r => bind (k r) f)
  end.

(** [try { p } catch (error) { handler error }]. *)
Fixpoint try_catch {A : Type} (p : prog A) (handler : thrown -> prog A) : prog A :=
  match p with
  | Ret a => Ret a
  | Throw e => handler e
  | AwaitFetch url init k => AwaitFetch url init (fun r => try_catch (k r) handler)
  end.

(** A step that returns or throws an error of another class. *)
Definition lift {A : Type} (r : Js.error + A) : prog A :=
  match r with
  | inl e => Throw (OtherError e)
  | inr a => Ret a
  end.

(** [await fetch(url, init)]. *)
Definition fetch (url : js_string) (init : Fetch.RequestInit) : prog Fetch.Response :=
  AwaitFetch url init lift.

(** The network answers each call to [fetch]. *)
Definition network : Type := js_string -> Fetch.RequestInit -> Js.error + Fetch.Response.

Inductive outcome (A : Type) : Type :=
| Resolved (a : A)
| Rejected (e : thrown).

Arguments Resolved {A} a.
Arguments Rejected {A} e.

(** Running a computation against a network: how it settles, and the
    calls to [fetch] it made, in order. *)
Fixpoint run {A : Type} (net : network) (p : prog A)
  : outcome A * list (js_string * Fetch.RequestInit) :=
  match p with
  | Ret a => (Resolved a, [])
  | Throw e => (Rejected e, [])
  | AwaitFetch url init k =>
      let (o, calls) := run net (k (net url init)) in
      (o, (url, init) :: calls)
  end.

Definition result {A : Type} (net : network) (p : prog A) : outcome A := fst (run net p).
Definition calls {A : Type} (net : network) (p : prog A)
  : list (js_string * Fetch.RequestInit) := snd (run net p).

End Async.

Declare Scope async_scope.
Delimit Scope async_scope with async.
Notation "x <- p ;; q" := (Async.bind p (fun x => q))
  (at level 61, p at next level, right associativity) : async_scope.

Local Open Scope async_scope.

(* ===================================================================== *)
(** ** [class DomainFlow] *)
(* ===================================================================== *)

Module DomainFlow.

(** The second constructor argument, [options = {}]. *)
Record Options := mk_options {
  opt_baseUrl : option js_string;
  opt_timeout : option Js.number
}.

Definition no_options : Options := mk_options None None.

(** The fields set by the constructor.  The four resource namespaces
    hold nothing but a reference to this object; they are the modules
    below, which take the client as their [this.client]. *)
Record t := mk {
  apiKey : js_string;
  baseUrl : js_string;
  timeout : Js.number
}.

Definition default_baseUrl : js_string := lit "https://api.domainflow.com".

(** The Number 30000. *)
Definition ieee_30000 : spec_float :=
  Eval cbv in binary_normalize 53 1024 30000 0 false.

Definition default_timeout : Js.number := Js.mk_number ieee_30000 (lit "30000").

(** [constructor(apiKey, options = {})]; an absent argument is [None]. *)
Definition constructor (apiKey : option js_string) (options : Options)
  : Async.prog t :=
  match apiKey with
  | Some key =>
      if negb (JsString.truthy key) then
        Async.Throw (Async.OtherError
          (Js.mk_error (lit "Error") (lit "DomainFlow API key is required")))
      else
        Async.Ret
          (mk key
              (match opt_baseUrl options with
               | Some u => if JsString.truthy u then u else default_baseUrl
               | None => default_baseUrl
               end)
              (match opt_timeout options with
               | Some ms => if Js.number_truthy ms then ms else default_timeout
               | None => default_timeout
               end))
  | None =>
      Async.Throw (Async.OtherError
        (Js.mk_error (lit "Error") (lit "DomainFlow API key is required")))
  end.

(** The [options] object built by [_request] for [fetch]. *)
Definition request_init (this : t) (method : js_string) (data : Js.value)
  : Fetch.RequestInit :=
  let headers :=
    [ (lit "x-api-key", apiKey this);
      (lit "Content-Type", lit "application/json") ] in
  Fetch.mk_init method headers
    (if Js.truthy data then Js.JSON_stringify data else None).

(** The default [data = null]: an argument that is left out, or is
    [undefined], reads as [null]. *)
Definition default_null (data : Js.value) : Js.value :=
  match data with Js.VUndefined => Js.VNull | _ => data end.

(** [async _request(method, path, data = null)]. *)
Definition _request (this : t) (method path : js_string) (data : Js.value)
  : Async.prog Js.value :=
  let data := default_null data in
  let url := baseUrl this ++ path in
  let options := request_init this method data in
  Async.try_catch
    (response <- Async.fetch url options ;;
     json <- Async.lift (Fetch.json response) ;;
     if negb (Fetch.ok response) then
       message <- Async.lift (Js.get_error json) ;;
       error <- Async.lift
                  (DomainFlowError.constructor
                     (Js.or_else message (Js.VString (lit "API request failed")))
                     (Some (Fetch.status response))
                     json) ;;
       Async.Throw (Async.GatewayError error)
     else Async.Ret json)
    (fun error =>
       if Async.instanceof_DomainFlowError error then Async.Throw error
       else
         error' <- Async.lift
                     (DomainFlowError.constructor
                        (Js.VString (Async.message_of error)) None Js.VNull) ;;
         Async.Throw (Async.GatewayError error')).

End DomainFlow.

(* ===================================================================== *)
(** ** [class DomainsResource] *)
(* ===================================================================== *)

Module DomainsResource.

(** The argument of [list], [params = {}]. *)
Record ListParams := mk_params {
  tenantId : option js_string;
  status : option js_string
}.

Definition no_params : ListParams := mk_params None None.

Definition add (client : DomainFlow.t) (domain upstreamUrl : js_string)
           (tenantId : option js_string) : Async.prog Js.value :=
  DomainFlow._request client (lit "POST") (lit "/api/domain/add")
    (Js.VObject
       [ (lit "domain", Js.VString domain);
         (lit "upstream_url", Js.VString upstreamUrl);
         (lit "tenant_id", Js.of_option_string tenantId) ]).

Definition get (client : DomainFlow.t) (domainId : js_string) : Async.prog Js.value :=
  DomainFlow._request client (lit "GET") (lit "/api/domain/" ++ domainId) Js.VUndefined.

(** The search parameters [list] collects: a filter is appended when
    its value is truthy. *)
Definition list_queryParams (params : ListParams) : URLSearchParams.t :=
  let queryParams := URLSearchParams.new in
  let queryParams :=
    match tenantId params with
    | Some v => if JsString.truthy v
                then URLSearchParams.append queryParams (lit "tenant_id") v
                else queryParams
    | None => queryParams
    end in
  match status params with
  | Some v => if JsString.truthy v
              then URLSearchParams.append queryParams (lit "status") v
              else queryParams
  | None => queryParams
  end.

(** The path [list] requests: [`/api/domain${query}`]. *)
Definition list_path (params : ListParams) : js_string :=
  let queryParams := list_queryParams params in
  let query :=
    if JsString.truthy (URLSearchParams.toString queryParams)
    then lit "?" ++ URLSearchParams.toString queryParams
    else [] in
  lit "/api/domain" ++ query.

Definition list (client : DomainFlow.t) (params : ListParams) : Async.prog Js.value :=
  DomainFlow._request client (lit "GET") (list_path params) Js.VUndefined.

Definition verify (client : DomainFlow.t) (domainId : js_string) : Async.prog Js.value :=
  DomainFlow._request client (lit "POST")
    (lit "/api/domain/" ++ domainId ++ lit "/verify") Js.VUndefined.

Definition delete (client : DomainFlow.t) (domainId : js_string) : Async.prog Js.value :=
  DomainFlow._request client (lit "DELETE") (lit "/api/domain/" ++ domainId) Js.VUndefined.

Definition getDnsInstructions (client : DomainFlow.t) (domainId : js_string)
  : Async.prog Js.value :=
  DomainFlow._request client (lit "GET")
    (lit "/api/domain/" ++ domainId ++ lit "/dns-instructions") Js.VUndefined.

End DomainsResource.

(* ===================================================================== *)
(** ** [class TenantsResource] *)
(* ===================================================================== *)

Module TenantsResource.

Definition create (client : DomainFlow.t) (name upstreamUrl : js_string)
  : Async.prog Js.value :=
  DomainFlow._request client (lit "POST") (lit "/api/tenant/create")
    (Js.VObject
       [ (lit "name", Js.VString name);
         (lit "upstream_url", Js.VString upstreamUrl) ]).

Definition get (client : DomainFlow.t) (tenantId : js_string) : Async.prog Js.value :=
  DomainFlow._request client (lit "GET") (lit "/api/tenant/" ++ tenantId) Js.VUndefined.

Definition list (client : DomainFlow.t) : Async.prog Js.value :=
  DomainFlow._request client (lit "GET") (lit "/api/tenant") Js.VUndefined.

Definition update (client : DomainFlow.t) (tenantId : js_string) (updates : Js.value)
  : Async.prog Js.value :=
  DomainFlow._request client (lit "PATCH") (lit "/api/tenant/" ++ tenantId) updates.

Definition delete (client : DomainFlow.t) (tenantId : js_string) : Async.prog Js.value :=
  DomainFlow._request client (lit "DELETE") (lit "/api/tenant/" ++ tenantId) Js.VUndefined.

End TenantsResource.

(* ===================================================================== *)
(** ** [class WebhooksResource] *)
(* ===================================================================== *)

Module WebhooksResource.

Definition create (client : DomainFlow.t) (url : js_string) (events : list js_string)
           (tenantId : option js_string) : Async.prog Js.value :=
  DomainFlow._request client (lit "POST") (lit "/api/webhook")
    (Js.VObject
       [ (lit "url", Js.VString url);
         (lit "events", Js.VArray (map Js.VString events));
         (lit "tenant_id", Js.of_option_string tenantId) ]).

Definition list (client : DomainFlow.t) : Async.prog Js.value :=
  DomainFlow._request client (lit "GET") (lit "/api/webhook") Js.VUndefined.

Definition delete (client : DomainFlow.t) (webhookId : js_string) : Async.prog Js.value :=
  DomainFlow._request client (lit "DELETE") (lit "/api/webhook/" ++ webhookId) Js.VUndefined.

(** [verifySignature(payload, signature, secret)]: synchronous, and
    independent of the client. *)
Definition verifySignature (payload signature secret : js_string) : bool :=
  let hmac := Crypto.createHmac secret in
  let hmac := Crypto.update hmac payload in
  let computed := Crypto.digest_hex hmac in
  strict_eq computed signature.

End WebhooksResource.

(* ===================================================================== *)
(** ** [class CertificatesResource] *)
(* ===================================================================== *)

Module CertificatesResource.

Definition get (client : DomainFlow.t) (domainId : js_string) : Async.prog Js.value :=
  DomainFlow._request client (lit "GET") (lit "/api/certificates/" ++ domainId) Js.VUndefined.

Definition renew (client : DomainFlow.t) (domainId : js_string) : Async.prog Js.value :=
  DomainFlow._request client (lit "POST")
    (lit "/api/certificates/" ++ domainId ++ lit "/renew") Js.VUndefined.

End CertificatesResource.

(* ===================================================================== *)
(** ** The asynchronous operations of the client, as one type *)
(* ===================================================================== *)

Inductive operation : Type :=
| domains_add (domain upstreamUrl : js_string) (tenantId : option js_string)
| domains_get (domainId : js_string)
| domains_list (params : DomainsResource.ListParams)
| domains_verify (domainId : js_string)
| domains_delete (domainId : js_string)
| domains_getDnsInstructions (domainId : js_string)
| tenants_create (name upstreamUrl : js_string)
| tenants_get (tenantId : js_string)
| tenants_list
| tenants_update (tenantId : js_string) (updates : Js.value)
| tenants_delete (tenantId : js_string)
| webhooks_create (url : js_string) (events : list js_string) (tenantId : option js_string)
| webhooks_list
| webhooks_delete (webhookId : js_string)
| certificates_get (domainId : js_string)
| certificates_renew (domainId : js_string).

(** [perform client op] is the call [client.<resource>.<method>(...)]. *)
Definition perform (client : DomainFlow.t) (op : operation) : Async.prog Js.value :=
  match op with
  | domains_add domain upstreamUrl tenantId =>
      DomainsResource.add client domain upstreamUrl tenantId
  | domains_get domainId => DomainsResource.get client domainId
  | domains_list params => DomainsResource.list client params
  | domains_verify domainId => DomainsResource.verify client domainId
  | domains_delete domainId => DomainsResource.delete client domainId
  | domains_getDnsInstructions domainId => DomainsResource.getDnsInstructions client domainId
  | tenants_create name upstreamUrl => TenantsResource.create client name upstreamUrl
  | tenants_get tenantId => TenantsResource.get client tenantId
  | tenants_list => TenantsResource.list client
  | tenants_update tenantId updates => TenantsResource.update client tenantId updates
  | tenants_delete tenantId => TenantsResource.delete client tenantId
  | webhooks_create url events tenantId => WebhooksResource.create client url events tenantId
  | webhooks_list => WebhooksResource.list client
  | webhooks_delete webhookId => WebhooksResource.delete client webhookId
  | certificates_get domainId => CertificatesResource.get client domainId
  | certificates_renew domainId => CertificatesResource.renew client domainId
  end.

(** The method, path and data each operation hands to [_request]. *)
Definition wire (op : operation) : js_string * js_string * Js.value :=
  match op with
  | domains_add domain upstreamUrl tenantId =>
      (lit "POST", lit "/api/domain/add",
       Js.VObject
         [ (lit "domain", Js.VString domain);
           (lit "upstream_url", Js.VString upstreamUrl);
           (lit "tenant_id", Js.of_option_string tenantId) ])
  | domains_get domainId => (lit "GET", lit "/api/domain/" ++ domainId, Js.VUndefined)
  | domains_list params => (lit "GET", DomainsResource.list_path params, Js.VUndefined)
  | domains_verify domainId =>
      (lit "POST", lit "/api/domain/" ++ domainId ++ lit "/verify", Js.VUndefined)
  | domains_delete domainId => (lit "DELETE", lit "/api/domain/" ++ domainId, Js.VUndefined)
  | domains_getDnsInstructions domainId =>
      (lit "GET", lit "/api/domain/" ++ domainId ++ lit "/dns-instructions", Js.VUndefined)
  | tenants_create name upstreamUrl =>
      (lit "POST", lit "/api/tenant/create",
       Js.VObject
         [ (lit "name", Js.VString name);
           (lit "upstream_url", Js.VString upstreamUrl) ])
  | tenants_get tenantId => (lit "GET", lit "/api/tenant/" ++ tenantId, Js.VUndefined)
  | tenants_list => (lit "GET", lit "/api/tenant", Js.VUndefined)
  | tenants_update tenantId updates => (lit "PATCH", lit "/api/tenant/" ++ tenantId, updates)
  | tenants_delete tenantId => (lit "DELETE", lit "/api/tenant/" ++ tenantId, Js.VUndefined)
  | webhooks_create url events tenantId =>
      (lit "POST", lit "/api/webhook",
       Js.VObject
         [ (lit "url", Js.VString url);
           (lit "events", Js.VArray (map Js.VString events));
           (lit "tenant_id", Js.of_option_string tenantId) ])
  | webhooks_list => (lit "GET", lit "/api/webhook", Js.VUndefined)
  | webhooks_delete webhookId => (lit "DELETE", lit "/api/webhook/" ++ webhookId, Js.VUndefined)
  | certificates_get domainId => (lit "GET", lit "/api/certificates/" ++ domainId, Js.VUndefined)
  | certificates_renew domainId =>
      (lit "POST", lit "/api/certificates/" ++ domainId ++ lit "/renew", Js.VUndefined)
  end.

(* ===================================================================== *)
(** ** The wording of the specification, where it is compared with the code *)
(* ===================================================================== *)

Module Spec.

(** The filters of a [list] call, as key and value: [tenant_id] for
    [tenantId], [status] for [status], each when it is provided. *)
Definition filters (params : DomainsResource.ListParams)
  : list (js_string * js_string) :=
  (match DomainsResource.tenantId params with
   | Some v => [(lit "tenant_id", v)]
   | None => []
   end)
  ++ (match DomainsResource.status params with
      | Some v => [(lit "status", v)]
      | None => []
      end).

(** One [key=value] per pair, joined with [&], prefixed with [?] only
    if there is a pair; [write] is how a value is written. *)
Definition query (write : js_string -> js_string)
           (pairs : list (js_string * js_string)) : js_string :=
  match pairs with
  | [] => []
  | _ :: _ =>
      lit "?" ++ join (lit "&") (map (fun p => fst p ++ lit "=" ++ write (snd p)) pairs)
  end.

(** The path of list domains as the specification words it: one
    [key=value] pair per provided filter, the value as given. *)
Definition list_path (params : DomainsResource.ListParams) : js_string :=
  lit "/api/domain" ++ query (fun v => v) (filters params).

(** The body's [error] field; [undefined] when the body has none. *)
Definition error_field (body : Js.value) : Js.value :=
  match body with
  | Js.VObject properties =>
      match Js.own_property properties (lit "error") with
      | Some v => v
      | None => Js.VUndefined
      end
  | _ => Js.VUndefined
  end.

Definition fallback_message : js_string := lit "API request failed".

End Spec.

(* ===================================================================== *)
(** ** Fixtures for closed examples *)
(* ===================================================================== *)

Module Fixture.

(** [new DomainFlow('test-api-key')], as in [test.js]. *)
Definition client : DomainFlow.t :=
  DomainFlow.mk (lit "test-api-key") DomainFlow.default_baseUrl DomainFlow.default_timeout.

(** A network on which every connection is refused. *)
Definition fetch_failed : Js.error := Js.TypeError (lit "fetch failed").
Definition unreachable : Async.network := fun _ _ => inl fetch_failed.

(** A server that answers every request with one status and one
    decoded JSON body. *)
Definition answering (status : Z) (body : Js.value) : Async.network :=
  fun _ _ => inr (Fetch.mk_response status (inr body)).

(** A server that answers with a status and a body that is not JSON. *)
Definition not_json : Js.error :=
  Js.mk_error (lit "SyntaxError") (lit "Unexpected token < in JSON at position 0").
Definition answering_html (status : Z) : Async.network :=
  fun _ _ => inr (Fetch.mk_response status (inl not_json)).

(** The bodies [{ error: 'not found' }] and [{ error: '' }]. *)
Definition body_not_found : Js.value :=
  Js.VObject [(lit "error", Js.VString (lit "not found"))].
Definition body_empty_error : Js.value :=
  Js.VObject [(lit "error", Js.VString [])].

End Fixture.

(* ===================================================================== *)
(** ** Well-formed strings and the characters of a query string *)
(* ===================================================================== *)

Module WellFormed.

(** A code unit is a 16-bit number; a string that the engine can hold
    has nothing else. *)
Definition is_code_unit (c : Z) : bool := (0 <=? c) && (c <? 0x10000).

Definition is_js_string (s : js_string) : bool := forallb is_code_unit s.

Definition option_is_js_string (o : option js_string) : bool :=
  match o with Some s => is_js_string s | None => true end.

(** The characters the form-urlencoded serializer can emit: the
    unreserved ones (which include the digits of [%XX]), [+] and [%]. *)
Definition is_url_safe (c : Z) : bool :=
  URLSearchParams.is_unreserved c || (c =? 0x2B) || (c =? 0x25).

(** Occurrences of a code unit in a string. *)
Definition count (c : Z) (s : js_string) : nat :=
  List.length (filter (fun x => x =? c) s).

Definition ampersand : Z := 0x26.
Definition equals_sign : Z := 0x3D.
Definition question_mark : Z := 0x3F.

End WellFormed.

(* ===================================================================== *)
(** * Properties *)
(* ===================================================================== *)

(** ** Strings *)

Lemma strict_eq_refl (s : js_string) : strict_eq s s = true.
Proof.
  induction s as [|c s IH]; simpl; [reflexivity|].
  now rewrite Z.eqb_refl, IH.
Qed.

Lemma strict_eq_true_iff (a b : js_string) : strict_eq a b = true <-> a = b.
Proof.
  split; [|intros ->; apply strict_eq_refl].
  revert b; induction a as [|x a IH]; intros [|y b]; simpl; try discriminate; auto.
  intros H. apply andb_true_iff in H as [Hxy Hab].
  apply Z.eqb_eq in Hxy. f_equal; auto.
Qed.

Lemma strict_eq_false_iff (a b : js_string) : strict_eq a b = false <-> a <> b.
Proof.
  rewrite <- not_true_iff_false, strict_eq_true_iff. tauto.
Qed.

(** ** Bytes and hexadecimal digits *)

Lemma land_255_is_byte (x : Z) : is_byte (Z.land x 255).
Proof.
  unfold is_byte. change 255 with (Z.ones 8).
  rewrite Z.land_ones by lia. apply Z.mod_pos_bound. lia.
Qed.

Lemma sha256_bytes (msg : list Z) : Forall is_byte (SHA256.sha256 msg).
Proof.
  unfold SHA256.sha256.
  generalize (fold_left SHA256.compress
                (SHA256.blocks (List.length (SHA256.pad msg) / 64) (SHA256.pad msg))
                SHA256.initial_state) as s.
  intros s. unfold SHA256.bytes_of_state.
  cbn [flat_map SHA256.bytes_of_word app].
  repeat (constructor; [apply land_255_is_byte|]). constructor.
Qed.

Lemma sha256_length (msg : list Z) : List.length (SHA256.sha256 msg) = 32%nat.
Proof. reflexivity. Qed.

Lemma hex_digit_lower (n : Z) : 0 <= n < 16 -> is_lower_hex (hex_digit n) = true.
Proof.
  intros H. unfold hex_digit, is_lower_hex, is_ascii_digit.
  destruct (Z.ltb_spec n 10).
  - apply orb_true_iff; left. apply andb_true_iff; split; apply Z.leb_le; lia.
  - apply orb_true_iff; right. apply andb_true_iff; split; apply Z.leb_le; lia.
Qed.

Lemma hex_encode_lower (bytes : list Z) :
  Forall is_byte bytes -> forallb is_lower_hex (hex_encode bytes) = true.
Proof.
  induction 1 as [|b bytes Hb _ IH]; [reflexivity|].
  unfold hex_encode in *. cbn [flat_map hex_of_byte app forallb].
  rewrite IH, andb_true_r. unfold is_byte in Hb.
  rewrite !hex_digit_lower; [reflexivity| |].
  - change 15 with (Z.ones 4). rewrite Z.land_ones by lia.
    apply Z.mod_pos_bound; lia.
  - rewrite Z.shiftr_div_pow2 by lia. change (2 ^ 4) with 16.
    split; [apply Z.div_pos; lia | apply Z.div_lt_upper_bound; lia].
Qed.

Lemma hex_encode_length (bytes : list Z) :
  List.length (hex_encode bytes) = (2 * List.length bytes)%nat.
Proof.
  induction bytes as [|b bytes IH]; [reflexivity|].
  unfold hex_encode in *. cbn [flat_map hex_of_byte app List.length].
  rewrite IH. lia.
Qed.

(** ** The digest computed by [verifySignature] *)

(** The three calls on the [Hmac] object compute RFC 2104's HMAC-SHA256
    of the UTF-8 bytes, in hexadecimal. *)
Lemma digest_hex_spec (secret payload : js_string) :
  Crypto.digest_hex (Crypto.update (Crypto.createHmac secret) payload)
  = Crypto.hmac_sha256_hex secret payload.
Proof.
  unfold Crypto.digest_hex, Crypto.hmac_sha256_hex, Crypto.digest_bytes,
    Crypto.HMAC_SHA256, Crypto.update, Crypto.createHmac, Crypto.ipad, Crypto.opad.
  cbn [Crypto.key_block Crypto.data app].
  do 3 f_equal.
  - apply map_ext. intros b. apply Z.lxor_comm.
  - do 2 f_equal. apply map_ext. intros b. apply Z.lxor_comm.
Qed.

Lemma verifySignature_unfold (payload signature secret : js_string) :
  WebhooksResource.verifySignature payload signature secret
  = strict_eq (Crypto.hmac_sha256_hex secret payload) signature.
Proof.
  unfold WebhooksResource.verifySignature. now rewrite digest_hex_spec.
Qed.

Lemma hmac_sha256_hex_lower (secret payload : js_string) :
  forallb is_lower_hex (Crypto.hmac_sha256_hex secret payload) = true.
Proof. apply hex_encode_lower, sha256_bytes. Qed.

Lemma hmac_sha256_hex_length (secret payload : js_string) :
  List.length (Crypto.hmac_sha256_hex secret payload) = 64%nat.
Proof. unfold Crypto.hmac_sha256_hex. now rewrite hex_encode_length. Qed.

(** Published test vectors: FIPS 180-4 (the message [abc]) and RFC 4231,
    test case 2. *)
Example sha256_abc :
  hex_encode (SHA256.sha256 (utf8_encode (lit "abc")))
  = lit "ba7816bf8f01cfea414140de5dae2223b00361a396177a9cb410ff61f20015ad".
Proof. vm_compute. reflexivity. Qed.

Example hmac_sha256_rfc4231_case2 :
  Crypto.hmac_sha256_hex (lit "Jefe") (lit "what do ya want for nothing?")
  = lit "5bdcc146bf60754e6a042426089575c75a003f089d2739839dec58b964ec3843".
Proof. vm_compute. reflexivity. Qed.

(** ** Webhook signatures *)

(** C1. For every payload and every secret, [verifySignature] returns
    [true] on the lowercase hexadecimal HMAC-SHA256 of the payload under
    the secret; that signature is 64 digits among [0-9a-f]. *)
Theorem verifySignature_accepts_hmac (payload secret : js_string) :
  WebhooksResource.verifySignature payload
    (hex_encode (Crypto.HMAC_SHA256 (utf8_encode secret) (utf8_encode payload)))
    secret = true
  /\ forallb is_lower_hex
       (hex_encode (Crypto.HMAC_SHA256 (utf8_encode secret) (utf8_encode payload)))
     = true
  /\ List.length
       (hex_encode (Crypto.HMAC_SHA256 (utf8_encode secret) (utf8_encode payload)))
     = 64%nat.
Proof.
  fold (Crypto.hmac_sha256_hex secret payload). split; [|split].
  - rewrite verifySignature_unfold. apply strict_eq_refl.
  - apply hmac_sha256_hex_lower.
  - apply hmac_sha256_hex_length.
Qed.

(** C2. A signature that differs from the lowercase hexadecimal
    HMAC-SHA256 of the payload under the secret is rejected, and
    [verifySignature] returns [true] only when the supplied signature is
    that digest, code unit for code unit. *)
Theorem verifySignature_exact (payload signature secret : js_string) :
  (signature <> Crypto.hmac_sha256_hex secret payload ->
   WebhooksResource.verifySignature payload signature secret = false)
  /\ (WebhooksResource.verifySignature payload signature secret = true ->
      signature = Crypto.hmac_sha256_hex secret payload).
Proof.
  rewrite verifySignature_unfold. split.
  - intros H. apply strict_eq_false_iff. congruence.
  - intros H. apply strict_eq_true_iff in H. congruence.
Qed.

(** A valid signature with its last digit flipped from [3] to [4], a
    valid signature checked against a payload that lost its question
    mark, and the signature of a re-serialized JSON payload are rejected. *)
Lemma verifySignature_exact_witness :
  WebhooksResource.verifySignature
    (lit "what do ya want for nothing?")
    (lit "5bdcc146bf60754e6a042426089575c75a003f089d2739839dec58b964ec3844")
    (lit "Jefe") = false
  /\ WebhooksResource.verifySignature
       (lit "what do ya want for nothing")
       (lit "5bdcc146bf60754e6a042426089575c75a003f089d2739839dec58b964ec3843")
       (lit "Jefe") = false
  /\ WebhooksResource.verifySignature
       (lit "{'b':2,'a':1}")
       (Crypto.hmac_sha256_hex (lit "Jefe") (lit "{'a':1,'b':2}"))
       (lit "Jefe") = false.
Proof.
  split; [|split].
  - apply (proj1 (verifySignature_exact _ _ _)). vm_compute. discriminate.
  - apply (proj1 (verifySignature_exact _ _ _)). vm_compute. discriminate.
  - apply (proj1 (verifySignature_exact _ _ _)). vm_compute. discriminate.
Defined.

Lemma map_fixed_point {A : Type} (f : A -> A) (l : list A) :
  map f l = l -> forall x, In x l -> f x = x.
Proof.
  induction l as [|a l IH]; simpl; [tauto|].
  intros H x [<-|Hx]; injection H; auto.
Qed.

Lemma ascii_upper_moves_hex_letter (c : Z) :
  is_lower_hex c = true -> is_ascii_alpha c = true -> ascii_upper c <> c.
Proof.
  unfold is_lower_hex, is_ascii_alpha, is_ascii_digit, is_ascii_upper,
    ascii_upper, is_ascii_lower.
  intros Hhex Halpha.
  destruct (Z.leb_spec 97 c), (Z.leb_spec c 122); cbn [andb]; try lia.
  all: exfalso.
  all: destruct (Z.leb_spec 48 c), (Z.leb_spec c 57), (Z.leb_spec c 102),
         (Z.leb_spec 65 c), (Z.leb_spec c 90);
       cbn in Hhex, Halpha; try discriminate; lia.
Qed.

(** C9. The comparison is case-sensitive: the computed digest consists
    of digits and the letters [a]..[f], so when it contains a letter its
    uppercase form is another string and is rejected. *)
Theorem verifySignature_rejects_uppercase (payload secret : js_string) :
  existsb is_ascii_alpha (Crypto.hmac_sha256_hex secret payload) = true ->
  forallb is_lower_hex (Crypto.hmac_sha256_hex secret payload) = true
  /\ toUpperCase_ascii (Crypto.hmac_sha256_hex secret payload)
     <> Crypto.hmac_sha256_hex secret payload
  /\ WebhooksResource.verifySignature payload
       (toUpperCase_ascii (Crypto.hmac_sha256_hex secret payload)) secret = false.
Proof.
  intros Halpha.
  pose proof (hmac_sha256_hex_lower secret payload) as Hlower.
  assert (Hne : toUpperCase_ascii (Crypto.hmac_sha256_hex secret payload)
                <> Crypto.hmac_sha256_hex secret payload).
  { intros Heq. apply existsb_exists in Halpha as (c & Hin & Hc).
    apply (ascii_upper_moves_hex_letter c); auto.
    - rewrite forallb_forall in Hlower. auto.
    - apply (map_fixed_point ascii_upper _ Heq c Hin). }
  split; [exact Hlower|split; [exact Hne|]].
  rewrite verifySignature_unfold. apply strict_eq_false_iff. congruence.
Qed.

Lemma verifySignature_rejects_uppercase_witness :
  existsb is_ascii_alpha
    (Crypto.hmac_sha256_hex (lit "Jefe") (lit "what do ya want for nothing?")) = true
  /\ WebhooksResource.verifySignature
       (lit "what do ya want for nothing?")
       (lit "5BDCC146BF60754E6A042426089575C75A003F089D2739839DEC58B964EC3843")
       (lit "Jefe") = false.
Proof.
  split; [vm_compute; reflexivity|].
  change (lit "5BDCC146BF60754E6A042426089575C75A003F089D2739839DEC58B964EC3843")
    with (toUpperCase_ascii
            (lit "5bdcc146bf60754e6a042426089575c75a003f089d2739839dec58b964ec3843")).
  rewrite <- hmac_sha256_rfc4231_case2.
  apply (verifySignature_rejects_uppercase
           (lit "what do ya want for nothing?") (lit "Jefe")).
  vm_compute. reflexivity.
Defined.

(** ** The request gateway *)

(** Running a sequence, and running a [try] block: the calls of the
    second part follow those of the first. *)
Lemma run_bind {A B : Type} (net : Async.network) (p : Async.prog A)
      (f : A -> Async.prog B) :
  Async.run net (Async.bind p f)
  = match Async.run net p with
    | (Async.Resolved a, calls) =>
        (fst (Async.run net (f a)), calls ++ snd (Async.run net (f a)))
    | (Async.Rejected e, calls) => (Async.Rejected e, calls)
    end.
Proof.
  induction p as [a | e | url init k IH]; cbn.
  - now destruct (Async.run net (f a)).
  - reflexivity.
  - rewrite IH. destruct (Async.run net (k (net url init))) as [[a | e] calls];
      reflexivity.
Qed.

Lemma run_try_catch {A : Type} (net : Async.network) (p : Async.prog A)
      (handler : Async.thrown -> Async.prog A) :
  Async.run net (Async.try_catch p handler)
  = match Async.run net p with
    | (Async.Resolved a, calls) => (Async.Resolved a, calls)
    | (Async.Rejected e, calls) =>
        (fst (Async.run net (handler e)), calls ++ snd (Async.run net (handler e)))
    end.
Proof.
  induction p as [a | e | url init k IH]; cbn.
  - reflexivity.
  - now destruct (Async.run net (handler e)).
  - rewrite IH. destruct (Async.run net (k (net url init))) as [[a | e] calls];
      reflexivity.
Qed.

(** A step that only returns or throws calls nothing. *)
Lemma calls_lift {A : Type} (net : Async.network) (r : Js.error + A) :
  Async.calls net (Async.lift r) = [].
Proof. destruct r; reflexivity. Qed.

(** Every operation is one call of [_request] with its line of the
    wire table. *)
Lemma perform_wire (client : DomainFlow.t) (op : operation) :
  perform client op
  = DomainFlow._request client (fst (fst (wire op))) (snd (fst (wire op))) (snd (wire op)).
Proof. destruct op; reflexivity. Qed.

(** Case analysis on whatever the next step of a run inspects. *)
Ltac settle_step :=
  match goal with
  | |- context [Async.lift ?x] =>
      lazymatch x with
      | inl _ => fail
      | inr _ => fail
      | _ => destruct x eqn:?
      end
  | |- context [match ?x with _ => _ end] =>
      lazymatch x with
      | context [Async.run] => fail
      | context [Async.lift] => fail
      | _ => destruct x eqn:?
      end
  end; cbn.

(** [_request] calls [fetch] exactly once, whatever the network answers. *)
Lemma request_calls (net : Async.network) (this : DomainFlow.t)
      (method path : js_string) (data : Js.value) :
  Async.calls net (DomainFlow._request this method path data)
  = [(DomainFlow.baseUrl this ++ path,
      DomainFlow.request_init this method (DomainFlow.default_null data))].
Proof.
  unfold Async.calls, DomainFlow._request, Async.fetch.
  cbn.
  generalize (net (DomainFlow.baseUrl this ++ path)
                  (DomainFlow.request_init this method (DomainFlow.default_null data))).
  intros answer. destruct answer as [e | r]; cbn; [reflexivity|].
  repeat settle_step; reflexivity.
Qed.

Lemma perform_calls (net : Async.network) (client : DomainFlow.t) (op : operation) :
  Async.calls net (perform client op)
  = [(DomainFlow.baseUrl client ++ snd (fst (wire op)),
      DomainFlow.request_init client (fst (fst (wire op)))
        (DomainFlow.default_null (snd (wire op))))].
Proof. rewrite perform_wire. apply request_calls. Qed.

(** How [_request] settles once the answer of the network is known. *)
Lemma request_result_rejected (net : Async.network) (this : DomainFlow.t)
      (method path : js_string) (data : Js.value) (failure : Js.error) :
  net (DomainFlow.baseUrl this ++ path)
      (DomainFlow.request_init this method (DomainFlow.default_null data))
  = inl failure ->
  Async.result net (DomainFlow._request this method path data)
  = Async.Rejected
      (Async.GatewayError
         (DomainFlowError.mk (Js.error_message failure) (lit "DomainFlowError")
            None Js.VNull)).
Proof.
  intros Hnet. unfold Async.result, DomainFlow._request, Async.fetch.
  cbn. rewrite Hnet. reflexivity.
Qed.

Lemma request_result_undecodable (net : Async.network) (this : DomainFlow.t)
      (method path : js_string) (data : Js.value) (status : Z) (failure : Js.error) :
  net (DomainFlow.baseUrl this ++ path)
      (DomainFlow.request_init this method (DomainFlow.default_null data))
  = inr (Fetch.mk_response status (inl failure)) ->
  Async.result net (DomainFlow._request this method path data)
  = Async.Rejected
      (Async.GatewayError
         (DomainFlowError.mk (Js.error_message failure) (lit "DomainFlowError")
            None Js.VNull)).
Proof.
  intros Hnet. unfold Async.result, DomainFlow._request, Async.fetch.
  cbn. rewrite Hnet. reflexivity.
Qed.

Lemma get_error_field (body : Js.value) :
  body <> Js.VNull -> body <> Js.VUndefined ->
  Js.get_error body = inr (Spec.error_field body).
Proof. destruct body; intros; try reflexivity; congruence. Qed.

Lemma ToString_falsy (v : Js.value) :
  Js.truthy v = false -> exists text, Js.ToString v = inr text.
Proof.
  destruct v as [| |b|x|s| |]; cbn; try discriminate; eauto.
  destruct b; eauto.
Qed.

Lemma request_result_status (net : Async.network) (this : DomainFlow.t)
      (method path : js_string) (data : Js.value)
      (status : Z) (body : Js.value) (text : js_string) :
  net (DomainFlow.baseUrl this ++ path)
      (DomainFlow.request_init this method (DomainFlow.default_null data))
  = inr (Fetch.mk_response status (inr body)) ->
  Fetch.ok (Fetch.mk_response status (inr body)) = false ->
  body <> Js.VNull -> body <> Js.VUndefined ->
  Js.ToString (Spec.error_field body) = inr text ->
  Async.result net (DomainFlow._request this method path data)
  = Async.Rejected
      (Async.GatewayError
         (DomainFlowError.mk
            (if Js.truthy (Spec.error_field body) then text else Spec.fallback_message)
            (lit "DomainFlowError") (Some status) body)).
Proof.
  intros Hnet Hok Hnull Hundef Htext.
  unfold Async.result, DomainFlow._request, Async.fetch.
  cbn. rewrite Hnet. cbn [Async.lift Async.bind Async.try_catch Fetch.json].
  rewrite Hok. cbn [negb].
  rewrite (get_error_field body Hnull Hundef).
  cbn [Async.lift Async.bind Async.try_catch].
  unfold Js.or_else, DomainFlowError.constructor.
  destruct (Js.truthy (Spec.error_field body)) eqn:Htruthy.
  - rewrite Htext.
    destruct (Spec.error_field body); try discriminate; reflexivity.
  - reflexivity.
Qed.

(** The one request of an operation, for hypotheses on the network. *)
Lemma perform_answer (net : Async.network) (client : DomainFlow.t) (op : operation)
      (answer : Js.error + Fetch.Response) :
  (forall url init,
      In (url, init) (Async.calls net (perform client op)) -> net url init = answer) ->
  net (DomainFlow.baseUrl client ++ snd (fst (wire op)))
      (DomainFlow.request_init client (fst (fst (wire op)))
         (DomainFlow.default_null (snd (wire op))))
  = answer.
Proof.
  intros H. apply H. rewrite perform_calls. left. reflexivity.
Qed.

(** C4. When [fetch] rejects, so that no response is obtained, every
    operation rejects with a [DomainFlowError] whose [statusCode] and
    [response] are [null] and whose message is that of the rejection. *)
Theorem transport_failure_rejects (net : Async.network) (client : DomainFlow.t)
        (op : operation) (failure : Js.error) :
  (forall url init,
      In (url, init) (Async.calls net (perform client op)) ->
      net url init = inl failure) ->
  Async.result net (perform client op)
  = Async.Rejected
      (Async.GatewayError
         (DomainFlowError.mk (Js.error_message failure) (lit "DomainFlowError")
            None Js.VNull)).
Proof.
  intros H. apply perform_answer in H. rewrite perform_wire.
  now apply request_result_rejected.
Qed.

Lemma transport_failure_rejects_witness :
  (forall url init,
      In (url, init)
         (Async.calls Fixture.unreachable
            (perform Fixture.client (domains_get (lit "dom_123")))) ->
      Fixture.unreachable url init = inl Fixture.fetch_failed)
  /\ Async.result Fixture.unreachable
       (perform Fixture.client (domains_get (lit "dom_123")))
     = Async.Rejected
         (Async.GatewayError
            (DomainFlowError.mk (lit "fetch failed") (lit "DomainFlowError")
               None Js.VNull)).
Proof.
  split; [reflexivity|].
  apply (transport_failure_rejects Fixture.unreachable Fixture.client
           (domains_get (lit "dom_123")) Fixture.fetch_failed).
  reflexivity.
Defined.

(** C5, as the code has it. When the body of a response does not decode
    as JSON, every operation rejects with a [DomainFlowError] (the decode
    error itself does not escape) whose [response] is [null], whose
    message is that of the decode error, and whose [statusCode] is
    [null]: the status of the response is not kept. *)
Theorem undecodable_body_rejects (net : Async.network) (client : DomainFlow.t)
        (op : operation) (status : Z) (failure : Js.error) :
  (forall url init,
      In (url, init) (Async.calls net (perform client op)) ->
      net url init = inr (Fetch.mk_response status (inl failure))) ->
  Async.result net (perform client op)
  = Async.Rejected
      (Async.GatewayError
         (DomainFlowError.mk (Js.error_message failure) (lit "DomainFlowError")
            None Js.VNull)).
Proof.
  intros H. apply perform_answer in H. rewrite perform_wire.
  now apply request_result_undecodable with (status := status).
Qed.

Lemma undecodable_body_rejects_witness :
  Fetch.ok (Fetch.mk_response 502 (inl Fixture.not_json)) = false
  /\ Async.result (Fixture.answering_html 502)
       (perform Fixture.client (domains_get (lit "dom_123")))
     = Async.Rejected
         (Async.GatewayError
            (DomainFlowError.mk (lit "Unexpected token < in JSON at position 0")
               (lit "DomainFlowError") None Js.VNull)).
Proof.
  split; [reflexivity|].
  apply (undecodable_body_rejects (Fixture.answering_html 502) Fixture.client
           (domains_get (lit "dom_123")) 502 Fixture.not_json).
  reflexivity.
Defined.

Example run_html_502 :
  Async.run (Fixture.answering_html 502)
    (perform Fixture.client (domains_get (lit "dom_123")))
  = (Async.Rejected
       (Async.GatewayError
          (DomainFlowError.mk (lit "Unexpected token < in JSON at position 0")
             (lit "DomainFlowError") None Js.VNull)),
     [(lit "https://api.domainflow.com/api/domain/dom_123",
       Fetch.mk_init (lit "GET")
         [(lit "x-api-key", lit "test-api-key");
          (lit "Content-Type", lit "application/json")]
         None)]).
Proof. reflexivity. Qed.

(** C5 as worded fails: a 502 response whose body is not JSON gives an
    error that does not carry 502. *)
Lemma undecodable_body_status_counterexample :
  Fetch.ok (Fetch.mk_response 502 (inl Fixture.not_json)) = false
  /\ ~ (exists e : DomainFlowError.t,
           Async.result (Fixture.answering_html 502)
             (perform Fixture.client (domains_get (lit "dom_123")))
           = Async.Rejected (Async.GatewayError e)
           /\ DomainFlowError.response e = Js.VNull
           /\ DomainFlowError.statusCode e = Some 502).
Proof.
  split; [reflexivity|].
  intros (e & Hrun & _ & Hstatus).
  unfold Async.result in Hrun. rewrite run_html_502 in Hrun.
  injection Hrun as <-. discriminate Hstatus.
Qed.

(** C3, as the code has it. When the response has a non-success status
    and its body decodes to a JSON value other than [null], every
    operation rejects with a [DomainFlowError] whose [statusCode] is the
    status and whose [response] is the decoded body.  Its message is the
    text of the body's [error] field when that field is truthy, and
    [API request failed] when the field is absent or falsy (an empty
    string, [null], [false], zero).  The text of a string is the string. *)
Theorem http_error_rejects (net : Async.network) (client : DomainFlow.t)
        (op : operation) (status : Z) (body : Js.value) (text : js_string) :
  (forall url init,
      In (url, init) (Async.calls net (perform client op)) ->
      net url init = inr (Fetch.mk_response status (inr body))) ->
  Fetch.ok (Fetch.mk_response status (inr body)) = false ->
  body <> Js.VNull -> body <> Js.VUndefined ->
  Js.ToString (Spec.error_field body) = inr text ->
  exists message : js_string,
    Async.result net (perform client op)
    = Async.Rejected
        (Async.GatewayError
           (DomainFlowError.mk message (lit "DomainFlowError") (Some status) body))
    /\ (Js.truthy (Spec.error_field body) = true -> message = text)
    /\ (Js.truthy (Spec.error_field body) = false -> message = Spec.fallback_message)
    /\ (forall s, Spec.error_field body = Js.VString s -> s <> [] -> message = s)
    /\ (Spec.error_field body = Js.VUndefined -> message = Spec.fallback_message).
Proof.
  intros H Hok Hnull Hundef Htext. apply perform_answer in H.
  exists (if Js.truthy (Spec.error_field body) then text else Spec.fallback_message).
  split; [|split; [|split; [|split]]].
  - rewrite perform_wire. now apply request_result_status.
  - intros ->. reflexivity.
  - intros ->. reflexivity.
  - intros s Hs Hne. rewrite Hs in Htext |- *. cbn in Htext.
    destruct s; [congruence|]. cbn. congruence.
  - intros ->. reflexivity.
Qed.

(** Status 404 with the body [{ error: 'not found' }]. *)
Lemma http_error_rejects_witness :
  Fetch.ok (Fetch.mk_response 404 (inr Fixture.body_not_found)) = false
  /\ Js.ToString (Spec.error_field Fixture.body_not_found) = inr (lit "not found")
  /\ Async.result (Fixture.answering 404 Fixture.body_not_found)
       (perform Fixture.client (domains_get (lit "dom_123")))
     = Async.Rejected
         (Async.GatewayError
            (DomainFlowError.mk (lit "not found") (lit "DomainFlowError")
               (Some 404) Fixture.body_not_found)).
Proof.
  split; [reflexivity|split; [reflexivity|]].
  destruct (http_error_rejects (Fixture.answering 404 Fixture.body_not_found)
              Fixture.client (domains_get (lit "dom_123")) 404
              Fixture.body_not_found (lit "not found"))
    as (message & Hrun & Htruthy & _).
  - reflexivity.
  - reflexivity.
  - discriminate.
  - discriminate.
  - reflexivity.
  - rewrite Hrun, (Htruthy eq_refl). reflexivity.
Defined.

Example run_404_empty_error :
  Async.result (Fixture.answering 404 Fixture.body_empty_error)
    (perform Fixture.client (domains_get (lit "dom_123")))
  = Async.Rejected
      (Async.GatewayError
         (DomainFlowError.mk (lit "API request failed") (lit "DomainFlowError")
            (Some 404) Fixture.body_empty_error)).
Proof. reflexivity. Qed.

(** C3 as worded fails: with status 404 and the body [{ error: '' }] the
    [error] field is present, and the message is not that field but the
    fallback. *)
Lemma http_error_message_counterexample :
  Fetch.ok (Fetch.mk_response 404 (inr Fixture.body_empty_error)) = false
  /\ Spec.error_field Fixture.body_empty_error = Js.VString []
  /\ ~ (exists e : DomainFlowError.t,
           Async.result (Fixture.answering 404 Fixture.body_empty_error)
             (perform Fixture.client (domains_get (lit "dom_123")))
           = Async.Rejected (Async.GatewayError e)
           /\ DomainFlowError.statusCode e = Some 404
           /\ DomainFlowError.response e = Fixture.body_empty_error
           /\ Js.VString (DomainFlowError.message e)
              = Spec.error_field Fixture.body_empty_error).
Proof.
  split; [reflexivity|split; [reflexivity|]].
  intros (e & Hrun & _ & _ & Hmessage).
  rewrite run_404_empty_error in Hrun.
  injection Hrun as <-. discriminate Hmessage.
Qed.

(** A status 500 whose body is the JSON value [null]: reading [error]
    from it throws, and the error that reaches the caller has lost the
    status. *)
Example run_500_null :
  Async.result (Fixture.answering 500 Js.VNull)
    (perform Fixture.client (domains_get (lit "dom_123")))
  = Async.Rejected
      (Async.GatewayError
         (DomainFlowError.mk
            (lit "Cannot read properties of null (reading 'error')")
            (lit "DomainFlowError") None Js.VNull)).
Proof. reflexivity. Qed.

(** A successful response is returned as decoded. *)
Lemma success_returns_body (net : Async.network) (client : DomainFlow.t)
      (op : operation) (status : Z) (body : Js.value) :
  (forall url init,
      In (url, init) (Async.calls net (perform client op)) ->
      net url init = inr (Fetch.mk_response status (inr body))) ->
  Fetch.ok (Fetch.mk_response status (inr body)) = true ->
  Async.result net (perform client op) = Async.Resolved body.
Proof.
  intros H Hok. apply perform_answer in H. rewrite perform_wire.
  unfold Async.result, DomainFlow._request, Async.fetch.
  cbn. rewrite H. cbn [Async.lift Async.bind Async.try_catch Fetch.json].
  rewrite Hok. reflexivity.
Qed.

(** ** Construction *)

(** C7. Without an API key (no argument, or the empty string) the
    constructor throws at once an [Error] that is not a
    [DomainFlowError]; with an API key it returns the client configured
    with that key.  Neither path calls [fetch]. *)
Theorem constructor_requires_apiKey (net : Async.network)
        (options : DomainFlow.Options) (key : js_string) :
  key <> [] ->
  DomainFlow.constructor None options
  = Async.Throw
      (Async.OtherError
         (Js.mk_error (lit "Error") (lit "DomainFlow API key is required")))
  /\ DomainFlow.constructor (Some []) options = DomainFlow.constructor None options
  /\ Async.calls net (DomainFlow.constructor None options) = []
  /\ (exists client : DomainFlow.t,
         DomainFlow.constructor (Some key) options = Async.Ret client
         /\ DomainFlow.apiKey client = key)
  /\ Async.calls net (DomainFlow.constructor (Some key) options) = [].
Proof.
  intros Hkey. destruct key as [|c key]; [congruence|].
  split; [reflexivity|split; [reflexivity|split; [reflexivity|split]]].
  - eexists. split; reflexivity.
  - reflexivity.
Qed.

(** [new DomainFlow('test-api-key')] and [new DomainFlow()], as in
    [test.js]. *)
Lemma constructor_requires_apiKey_witness :
  lit "test-api-key" <> []
  /\ DomainFlow.constructor (Some (lit "test-api-key")) DomainFlow.no_options
     = Async.Ret Fixture.client
  /\ Async.run Fixture.unreachable
       (DomainFlow.constructor None DomainFlow.no_options)
     = (Async.Rejected
          (Async.OtherError
             (Js.mk_error (lit "Error") (lit "DomainFlow API key is required"))),
        []).
Proof.
  assert (Hkey : lit "test-api-key" <> []) by discriminate.
  destruct (constructor_requires_apiKey Fixture.unreachable DomainFlow.no_options
              (lit "test-api-key") Hkey)
    as (Hthrow & _ & _ & (client & Hret & _) & _).
  split; [exact Hkey|split].
  - reflexivity.
  - rewrite Hthrow. reflexivity.
Defined.

(** ** Headers *)

(** C8. Every request issued by an operation carries [x-api-key] with
    the client's API key, and carries [Content-Type: application/json]
    when it has a body. *)
Theorem requests_carry_headers (net : Async.network) (client : DomainFlow.t)
        (op : operation) (url : js_string) (init : Fetch.RequestInit) :
  In (url, init) (Async.calls net (perform client op)) ->
  Fetch.header (Fetch.headers init) (lit "x-api-key") = Some (DomainFlow.apiKey client)
  /\ (Fetch.body init <> None ->
      Fetch.header (Fetch.headers init) (lit "Content-Type")
      = Some (lit "application/json")).
Proof.
  rewrite perform_calls. intros [Hcall | []].
  injection Hcall as _ <-. split; [reflexivity|]. intros _. reflexivity.
Qed.

(** The request of [tenants.create], which has a body. *)
Lemma requests_carry_headers_witness :
  exists url init,
    In (url, init)
       (Async.calls Fixture.unreachable
          (perform Fixture.client
             (tenants_create (lit "Customer Name") (lit "https://customer.yourapp.com"))))
    /\ Fetch.body init
       <> None
    /\ Fetch.header (Fetch.headers init) (lit "x-api-key") = Some (lit "test-api-key")
    /\ Fetch.header (Fetch.headers init) (lit "Content-Type")
       = Some (lit "application/json").
Proof.
  eexists. eexists.
  assert (Hin : In (DomainFlow.baseUrl Fixture.client ++ lit "/api/tenant/create",
                    DomainFlow.request_init Fixture.client (lit "POST")
                      (Js.VObject
                         [ (lit "name", Js.VString (lit "Customer Name"));
                           (lit "upstream_url",
                            Js.VString (lit "https://customer.yourapp.com")) ]))
                   (Async.calls Fixture.unreachable
                      (perform Fixture.client
                         (tenants_create (lit "Customer Name")
                            (lit "https://customer.yourapp.com"))))).
  { left. reflexivity. }
  assert (Hbody : Fetch.body
                    (DomainFlow.request_init Fixture.client (lit "POST")
                       (Js.VObject
                          [ (lit "name", Js.VString (lit "Customer Name"));
                            (lit "upstream_url",
                             Js.VString (lit "https://customer.yourapp.com")) ]))
                  <> None) by discriminate.
  destruct (requests_carry_headers _ _ _ _ _ Hin) as [Hkey Htype].
  split; [exact Hin|split; [exact Hbody|split; [exact Hkey|exact (Htype Hbody)]]].
Defined.

(** The header is there whether or not the request has a body, and the
    body is present exactly when the data given to [_request] is truthy. *)
Lemma request_init_content_type (this : DomainFlow.t) (method : js_string)
      (data : Js.value) :
  Fetch.header (Fetch.headers (DomainFlow.request_init this method data))
    (lit "Content-Type") = Some (lit "application/json").
Proof. reflexivity. Qed.

(** The body of [tenants.create({ name: 'Acme', upstreamUrl: ... })];
    code unit 34 is the double quote. *)
Example run_tenants_create_body :
  let q (s : js_string) : js_string := 34 :: s ++ [34] in
  map (fun call => Fetch.body (snd call))
    (Async.calls Fixture.unreachable
       (perform Fixture.client
          (tenants_create (lit "Acme") (lit "https://acme.yourapp.com"))))
  = [Some (lit "{" ++ q (lit "name") ++ lit ":" ++ q (lit "Acme") ++ lit ","
             ++ q (lit "upstream_url") ++ lit ":"
             ++ q (lit "https://acme.yourapp.com") ++ lit "}")].
Proof. reflexivity. Qed.

(** ** The path of list domains *)

Lemma is_unreserved_range (b : Z) :
  URLSearchParams.is_unreserved b = true -> 42 <= b <= 122.
Proof.
  unfold URLSearchParams.is_unreserved, is_ascii_alpha, is_ascii_lower,
    is_ascii_upper, is_ascii_digit.
  rewrite !orb_true_iff, !andb_true_iff, !Z.leb_le, !Z.eqb_eq. lia.
Qed.

Lemma encode_byte_unreserved (b : Z) :
  URLSearchParams.is_unreserved b = true -> URLSearchParams.encode_byte b = [b].
Proof.
  intros H. unfold URLSearchParams.encode_byte. rewrite H.
  apply is_unreserved_range in H.
  destruct (Z.eqb_spec b 0x20); [lia | reflexivity].
Qed.

(** A value made of unreserved characters is written as it is. *)
Lemma form_urlencode_unreserved (v : js_string) :
  forallb URLSearchParams.is_unreserved v = true ->
  URLSearchParams.form_urlencode v = v.
Proof.
  unfold URLSearchParams.form_urlencode.
  induction v as [|c v IH]; [reflexivity|].
  cbn [forallb]. intros H. apply andb_true_iff in H as [Hc Hv].
  pose proof (is_unreserved_range c Hc) as Hrange.
  cbn [utf8_encode].
  replace (is_high_surrogate c) with false
    by (symmetry; apply andb_false_iff; left; apply Z.leb_gt; lia).
  replace (is_low_surrogate c) with false
    by (symmetry; apply andb_false_iff; left; apply Z.leb_gt; lia).
  unfold utf8_of_code_point.
  replace (c <? 0x80) with true by (symmetry; apply Z.ltb_lt; lia).
  cbn [flat_map app]. rewrite (encode_byte_unreserved c Hc), (IH Hv). reflexivity.
Qed.

Lemma form_urlencode_tenant_id :
  URLSearchParams.form_urlencode (lit "tenant_id") = lit "tenant_id".
Proof. reflexivity. Qed.

Lemma form_urlencode_status :
  URLSearchParams.form_urlencode (lit "status") = lit "status".
Proof. reflexivity. Qed.

(** The path requested by [list], for each of the four ways the two
    filters can be truthy or not. *)
Lemma list_path_cases (params : DomainsResource.ListParams) :
  DomainsResource.list_path params
  = lit "/api/domain"
      ++ Spec.query URLSearchParams.form_urlencode
           (filter (fun p => JsString.truthy (snd p)) (Spec.filters params)).
Proof.
  destruct params as [tenantId status].
  unfold DomainsResource.list_path, DomainsResource.list_queryParams, Spec.filters,
    URLSearchParams.toString, URLSearchParams.append, URLSearchParams.new,
    URLSearchParams.serialize_pair.
  cbn [DomainsResource.tenantId DomainsResource.status].
  f_equal.
  destruct tenantId as [[|t0 t]|], status as [[|s0 s]|];
    cbn [JsString.truthy app map filter snd fst join Spec.query];
    rewrite ?form_urlencode_tenant_id, ?form_urlencode_status;
    reflexivity.
Qed.

Lemma filter_all {A : Type} (f : A -> bool) (l : list A) :
  forallb f l = true -> filter f l = l.
Proof.
  induction l as [|a l IH]; cbn; [reflexivity|].
  intros H. apply andb_true_iff in H as [Ha Hl]. now rewrite Ha, IH.
Qed.

Lemma query_ext (f g : js_string -> js_string) (pairs : list (js_string * js_string)) :
  (forall p, In p pairs -> f (snd p) = g (snd p)) ->
  Spec.query f pairs = Spec.query g pairs.
Proof.
  intros H. destruct pairs as [|p pairs]; [reflexivity|].
  unfold Spec.query. do 2 f_equal. apply map_ext_in.
  intros q Hq. cbn beta. f_equal. f_equal. exact (H q Hq).
Qed.

(** C6, as the code has it. [list] requests the base address followed by
    [/api/domain] and the query: one [key=value] pair for each filter
    whose value is not empty ([tenant_id] before [status]), joined with
    [&] and prefixed with [?] when there is a pair, each value written in
    the application/x-www-form-urlencoded form.  For filters whose values
    are non-empty and made of letters, digits, [*], [-], [.] and [_],
    this is the path as the specification words it. *)
Theorem list_path_amended (net : Async.network) (client : DomainFlow.t)
        (params : DomainsResource.ListParams) :
  map fst (Async.calls net (DomainsResource.list client params))
  = [DomainFlow.baseUrl client ++ DomainsResource.list_path params]
  /\ DomainsResource.list_path params
     = lit "/api/domain"
         ++ Spec.query URLSearchParams.form_urlencode
              (filter (fun p => JsString.truthy (snd p)) (Spec.filters params))
  /\ (forallb (fun p => JsString.truthy (snd p)
                        && forallb URLSearchParams.is_unreserved (snd p))
              (Spec.filters params) = true ->
      DomainsResource.list_path params = Spec.list_path params).
Proof.
  split; [|split].
  - unfold DomainsResource.list. rewrite request_calls. reflexivity.
  - apply list_path_cases.
  - intros H. rewrite list_path_cases. unfold Spec.list_path. f_equal.
    rewrite forallb_forall in H.
    rewrite filter_all.
    + apply query_ext. intros p Hp. apply form_urlencode_unreserved.
      specialize (H p Hp). now apply andb_true_iff in H.
    + apply forallb_forall. intros p Hp.
      specialize (H p Hp). now apply andb_true_iff in H.
Qed.

(** [list()], [list({ status: 'verified' })] and a call with both
    filters. *)
Lemma list_path_amended_witness :
  forallb (fun p => JsString.truthy (snd p)
                    && forallb URLSearchParams.is_unreserved (snd p))
          (Spec.filters
             (DomainsResource.mk_params (Some (lit "tenant_123")) (Some (lit "verified"))))
  = true
  /\ DomainsResource.list_path DomainsResource.no_params = lit "/api/domain"
  /\ DomainsResource.list_path (DomainsResource.mk_params None (Some (lit "verified")))
     = lit "/api/domain?status=verified"
  /\ DomainsResource.list_path
       (DomainsResource.mk_params (Some (lit "tenant_123")) (Some (lit "verified")))
     = lit "/api/domain?tenant_id=tenant_123&status=verified".
Proof.
  split; [reflexivity|split; [|split]].
  - rewrite (proj2 (proj2 (list_path_amended Fixture.unreachable Fixture.client
                             DomainsResource.no_params))); reflexivity.
  - rewrite (proj2 (proj2 (list_path_amended Fixture.unreachable Fixture.client
                             (DomainsResource.mk_params None (Some (lit "verified"))))));
      reflexivity.
  - rewrite (proj2 (proj2 (list_path_amended Fixture.unreachable Fixture.client
                             (DomainsResource.mk_params (Some (lit "tenant_123"))
                                (Some (lit "verified"))))));
      reflexivity.
Defined.

(** C6 as worded fails: the value [a b] is not written as given. *)
Lemma list_path_counterexample :
  DomainsResource.list_path (DomainsResource.mk_params None (Some (lit "a b")))
  = lit "/api/domain?status=a+b"
  /\ Spec.list_path (DomainsResource.mk_params None (Some (lit "a b")))
     = lit "/api/domain?status=a b"
  /\ DomainsResource.list_path (DomainsResource.mk_params None (Some (lit "a b")))
     <> Spec.list_path (DomainsResource.mk_params None (Some (lit "a b"))).
Proof.
  split; [reflexivity|split; [reflexivity|discriminate]].
Qed.

(** Other values the serializer rewrites, and an empty value. *)
Example list_path_ampersand :
  DomainsResource.list_path (DomainsResource.mk_params (Some (lit "a&b=c")) None)
  = lit "/api/domain?tenant_id=a%26b%3Dc".
Proof. reflexivity. Qed.

Example list_path_empty_status :
  DomainsResource.list_path (DomainsResource.mk_params (Some (lit "t1")) (Some []))
  = lit "/api/domain?tenant_id=t1".
Proof. reflexivity. Qed.

(** C10. An empty string given as a filter counts as no filter: it adds
    no pair to the search parameters, the path is the one obtained
    without it, and with both filters empty the path is [/api/domain]
    with no query string. *)
Theorem list_ignores_empty_filters (tenantId status : option js_string) :
  DomainsResource.list_queryParams (DomainsResource.mk_params (Some []) status)
  = DomainsResource.list_queryParams (DomainsResource.mk_params None status)
  /\ DomainsResource.list_queryParams (DomainsResource.mk_params tenantId (Some []))
     = DomainsResource.list_queryParams (DomainsResource.mk_params tenantId None)
  /\ DomainsResource.list_path (DomainsResource.mk_params (Some []) status)
     = DomainsResource.list_path (DomainsResource.mk_params None status)
  /\ DomainsResource.list_path (DomainsResource.mk_params tenantId (Some []))
     = DomainsResource.list_path (DomainsResource.mk_params tenantId None)
  /\ DomainsResource.list_queryParams (DomainsResource.mk_params (Some []) (Some []))
     = []
  /\ DomainsResource.list_path (DomainsResource.mk_params (Some []) (Some []))
     = lit "/api/domain".
Proof.
  split; [reflexivity|split; [reflexivity|split; [reflexivity|split]]].
  - unfold DomainsResource.list_path.
    replace (DomainsResource.list_queryParams
               (DomainsResource.mk_params tenantId (Some [])))
      with (DomainsResource.list_queryParams
              (DomainsResource.mk_params tenantId None)) by reflexivity.
    reflexivity.
  - split; reflexivity.
Qed.

(** The request that [list({ tenantId: '', status: '' })] issues. *)
Example run_list_empty_filters :
  map fst
    (Async.calls Fixture.unreachable
       (DomainsResource.list Fixture.client
          (DomainsResource.mk_params (Some []) (Some []))))
  = [lit "https://api.domainflow.com/api/domain"].
Proof. reflexivity. Qed.

(* ===================================================================== *)
(** * Further properties of the code *)
(* ===================================================================== *)

(** ** How an operation settles *)

(** An HTTP status counts as success exactly from 200 to 299. *)
Lemma ok_range (status : Z) (outcome : Js.error + Js.value) :
  Fetch.ok (Fetch.mk_response status outcome) = true <-> 200 <= status <= 299.
Proof.
  unfold Fetch.ok. cbn [Fetch.status].
  rewrite andb_true_iff, !Z.leb_le. tauto.
Qed.

(** The result of [_request] as a function of the answer to its one
    call: used to read off every way an operation can settle. *)
Lemma request_result_cases (net : Async.network) (this : DomainFlow.t)
      (method path : js_string) (data : Js.value) :
  let answer := net (DomainFlow.baseUrl this ++ path)
                    (DomainFlow.request_init this method (DomainFlow.default_null data)) in
  let wrapped (message : js_string) :=
    Async.Rejected
      (Async.GatewayError
         (DomainFlowError.mk message (lit "DomainFlowError") None Js.VNull)) in
  Async.result net (DomainFlow._request this method path data)
  = match answer with
    | inl failure => wrapped (Js.error_message failure)
    | inr response =>
        match Fetch.json response with
        | inl failure => wrapped (Js.error_message failure)
        | inr body =>
            if Fetch.ok response then Async.Resolved body
            else
              match Js.get_error body with
              | inl failure => wrapped (Js.error_message failure)
              | inr field =>
                  match DomainFlowError.constructor
                          (Js.or_else field (Js.VString Spec.fallback_message))
                          (Some (Fetch.status response)) body with
                  | inl failure => wrapped (Js.error_message failure)
                  | inr error => Async.Rejected (Async.GatewayError error)
                  end
              end
        end
    end.
Proof.
  intros answer wrapped. subst answer wrapped.
  unfold Async.result, DomainFlow._request, Async.fetch. cbn.
  destruct (net _ _) as [failure | response]; cbn; [reflexivity|].
  destruct (Fetch.json response) as [failure | body]; cbn; [reflexivity|].
  destruct (Fetch.ok response); cbn; [reflexivity|].
  destruct (Js.get_error body) as [failure | field]; cbn; [reflexivity|].
  change (lit "API request failed") with Spec.fallback_message.
  destruct (DomainFlowError.constructor _ _ _) as [failure | error]; reflexivity.
Qed.

Lemma perform_result_cases (net : Async.network) (client : DomainFlow.t) (op : operation) :
  exists url init,
    Async.calls net (perform client op) = [(url, init)]
    /\ Async.result net (perform client op)
       = match net url init with
         | inl failure =>
             Async.Rejected
               (Async.GatewayError
                  (DomainFlowError.mk (Js.error_message failure)
                     (lit "DomainFlowError") None Js.VNull))
         | inr response =>
             match Fetch.json response with
             | inl failure =>
                 Async.Rejected
                   (Async.GatewayError
                      (DomainFlowError.mk (Js.error_message failure)
                         (lit "DomainFlowError") None Js.VNull))
             | inr body =>
                 if Fetch.ok response then Async.Resolved body
                 else
                   match Js.get_error body with
                   | inl failure =>
                       Async.Rejected
                         (Async.GatewayError
                            (DomainFlowError.mk (Js.error_message failure)
                               (lit "DomainFlowError") None Js.VNull))
                   | inr field =>
                       match DomainFlowError.constructor
                               (Js.or_else field (Js.VString Spec.fallback_message))
                               (Some (Fetch.status response)) body with
                       | inl failure =>
                           Async.Rejected
                             (Async.GatewayError
                                (DomainFlowError.mk (Js.error_message failure)
                                   (lit "DomainFlowError") None Js.VNull))
                       | inr error => Async.Rejected (Async.GatewayError error)
                       end
                   end
             end
         end.
Proof.
  do 2 eexists. split; [apply perform_calls|].
  rewrite perform_wire. apply request_result_cases.
Qed.

Lemma constructor_fields (message : Js.value) (statusCode : option Z)
      (response : Js.value) (error : DomainFlowError.t) :
  DomainFlowError.constructor message statusCode response = inr error ->
  DomainFlowError.name error = lit "DomainFlowError"
  /\ DomainFlowError.statusCode error = statusCode
  /\ DomainFlowError.response error = response.
Proof.
  unfold DomainFlowError.constructor.
  destruct (match message with Js.VUndefined => inr [] | _ => Js.ToString message end)
    as [failure | m]; [discriminate|].
  intros H. injection H as <-. cbn. auto.
Qed.

Lemma get_error_not_null (body field : Js.value) :
  Js.get_error body = inr field -> body <> Js.VNull /\ body <> Js.VUndefined.
Proof. destruct body; cbn; intros H; split; congruence. Qed.

(** X1. An operation resolves, with the value [v], exactly when the
    answer to its one request is a response with a status from 200 to
    299 whose body decodes to [v]; the value is handed on unchanged. *)
Theorem operation_resolves_iff (net : Async.network) (client : DomainFlow.t)
        (op : operation) (v : Js.value) :
  Async.result net (perform client op) = Async.Resolved v
  <-> exists url init status,
        Async.calls net (perform client op) = [(url, init)]
        /\ net url init = inr (Fetch.mk_response status (inr v))
        /\ 200 <= status <= 299.
Proof.
  destruct (perform_result_cases net client op) as (url & init & Hcalls & Hresult).
  rewrite Hresult, Hcalls. split.
  - intros H. exists url, init.
    destruct (net url init) as [failure | [status [failure | body]]]; cbn in H;
      try discriminate.
    destruct (Fetch.ok _) eqn:Hok.
    + injection H as ->. exists status. apply ok_range in Hok. auto.
    + destruct (Js.get_error body); [discriminate|].
      destruct (DomainFlowError.constructor _ _ _); discriminate.
  - intros (url' & init' & status & Heq & Hnet & Hrange).
    injection Heq as <- <-. rewrite Hnet. cbn [Fetch.json].
    now rewrite (proj2 (ok_range status (inr v)) Hrange).
Qed.

(** X2. An operation never rejects with anything but a
    [DomainFlowError] named [DomainFlowError].  Either the error has
    [statusCode] and [response] both [null], or the request was answered
    with a status outside 200..299 and a body that decoded to a value
    other than [null], and the error carries exactly that status and
    that body. *)
Theorem operation_rejects_with_DomainFlowError (net : Async.network)
        (client : DomainFlow.t) (op : operation) (e : Async.thrown) :
  Async.result net (perform client op) = Async.Rejected e ->
  exists error : DomainFlowError.t,
    e = Async.GatewayError error
    /\ DomainFlowError.name error = lit "DomainFlowError"
    /\ ((DomainFlowError.statusCode error = None
         /\ DomainFlowError.response error = Js.VNull)
        \/ (exists url init status body,
               Async.calls net (perform client op) = [(url, init)]
               /\ net url init = inr (Fetch.mk_response status (inr body))
               /\ ~ 200 <= status <= 299
               /\ body <> Js.VNull
               /\ DomainFlowError.statusCode error = Some status
               /\ DomainFlowError.response error = body)).
Proof.
  destruct (perform_result_cases net client op) as (url & init & Hcalls & Hresult).
  rewrite Hresult. clear Hresult. intros H.
  destruct (net url init) as [failure | [status [failure | body]]] eqn:Hnet;
    cbn [Fetch.json] in H.
  - injection H as <-. eexists. split; [reflexivity|]. split; [reflexivity|].
    left. split; reflexivity.
  - injection H as <-. eexists. split; [reflexivity|]. split; [reflexivity|].
    left. split; reflexivity.
  - destruct (Fetch.ok _) eqn:Hok; [discriminate|].
    destruct (Js.get_error body) as [failure | field] eqn:Hfield.
    + injection H as <-. eexists. split; [reflexivity|]. split; [reflexivity|].
      left. split; reflexivity.
    + destruct (DomainFlowError.constructor _ _ _) as [failure | error] eqn:Hnew.
      * injection H as <-. eexists. split; [reflexivity|]. split; [reflexivity|].
        left. split; reflexivity.
      * injection H as <-. exists error. split; [reflexivity|].
        apply constructor_fields in Hnew as (Hname & Hstatus & Hresponse).
        split; [exact Hname|]. right.
        exists url, init, status, body.
        split; [exact Hcalls|]. split; [exact Hnet|]. split.
        { intros Hrange. apply (ok_range status (inr body)) in Hrange. congruence. }
        split; [exact (proj1 (get_error_not_null _ _ Hfield))|].
        split; assumption.
Qed.

Lemma operation_rejects_with_DomainFlowError_witness :
  exists error : DomainFlowError.t,
    Async.result (Fixture.answering 404 Fixture.body_not_found)
      (perform Fixture.client (domains_get (lit "dom_123")))
    = Async.Rejected (Async.GatewayError error)
    /\ DomainFlowError.name error = lit "DomainFlowError".
Proof.
  destruct (operation_rejects_with_DomainFlowError
              (Fixture.answering 404 Fixture.body_not_found) Fixture.client
              (domains_get (lit "dom_123"))
              (Async.GatewayError
                 (DomainFlowError.mk (lit "not found") (lit "DomainFlowError")
                    (Some 404) Fixture.body_not_found)))
    as (error & Heq & Hname & _).
  - reflexivity.
  - exists error. rewrite <- Heq. split; [reflexivity | exact Hname].
Defined.

(** X3. A response with a non-success status whose body is the JSON
    value [null] does not give an error with that status: reading
    [json.error] throws a [TypeError], and the operation rejects with a
    [DomainFlowError] that carries the [TypeError]'s message and has
    [statusCode] and [response] both [null]. *)
Theorem null_body_loses_status (net : Async.network) (client : DomainFlow.t)
        (op : operation) (status : Z) :
  (forall url init,
      In (url, init) (Async.calls net (perform client op)) ->
      net url init = inr (Fetch.mk_response status (inr Js.VNull))) ->
  ~ 200 <= status <= 299 ->
  Async.result net (perform client op)
  = Async.Rejected
      (Async.GatewayError
         (DomainFlowError.mk
            (lit "Cannot read properties of null (reading 'error')")
            (lit "DomainFlowError") None Js.VNull)).
Proof.
  intros Hnet Hrange.
  destruct (perform_result_cases net client op) as (url & init & Hcalls & Hresult).
  rewrite Hresult, (Hnet url init) by (rewrite Hcalls; left; reflexivity).
  cbn [Fetch.json].
  destruct (Fetch.ok _) eqn:Hok; [|reflexivity].
  apply ok_range in Hok. contradiction.
Qed.

Lemma null_body_loses_status_witness :
  ~ 200 <= 500 <= 299
  /\ Async.result (Fixture.answering 500 Js.VNull)
       (perform Fixture.client (tenants_list))
     = Async.Rejected
         (Async.GatewayError
            (DomainFlowError.mk
               (lit "Cannot read properties of null (reading 'error')")
               (lit "DomainFlowError") None Js.VNull)).
Proof.
  assert (Hrange : ~ 200 <= 500 <= 299) by lia.
  split; [exact Hrange|].
  apply (null_body_loses_status (Fixture.answering 500 Js.VNull) Fixture.client
           tenants_list 500); [reflexivity | exact Hrange].
Defined.

(** X4. When the [error] field of a non-success body is itself an
    object, the message is not taken from inside it.  If the object has
    no own [toString] property the message is [[object Object]], with
    the status and the body kept; if it has one, converting it throws,
    and the error that reaches the caller has [statusCode] and
    [response] both [null]. *)
Theorem object_error_field (net : Async.network) (client : DomainFlow.t)
        (op : operation) (status : Z)
        (properties inner : list (js_string * Js.value)) :
  (forall url init,
      In (url, init) (Async.calls net (perform client op)) ->
      net url init = inr (Fetch.mk_response status (inr (Js.VObject properties)))) ->
  ~ 200 <= status <= 299 ->
  Js.own_property properties (lit "error") = Some (Js.VObject inner) ->
  Async.result net (perform client op)
  = match Js.own_property inner (lit "toString") with
    | None =>
        Async.Rejected
          (Async.GatewayError
             (DomainFlowError.mk (lit "[object Object]") (lit "DomainFlowError")
                (Some status) (Js.VObject properties)))
    | Some _ =>
        Async.Rejected
          (Async.GatewayError
             (DomainFlowError.mk (lit "Cannot convert object to primitive value")
                (lit "DomainFlowError") None Js.VNull))
    end.
Proof.
  intros Hnet Hrange Hfield.
  destruct (perform_result_cases net client op) as (url & init & Hcalls & Hresult).
  rewrite Hresult, (Hnet url init) by (rewrite Hcalls; left; reflexivity).
  cbn [Fetch.json].
  destruct (Fetch.ok _) eqn:Hok; [apply ok_range in Hok; contradiction|].
  cbn [Js.get_error]. rewrite Hfield.
  unfold Js.or_else, DomainFlowError.constructor. cbn [Js.truthy Js.ToString].
  destruct (Js.own_property inner (lit "toString")); reflexivity.
Qed.

(** The body [{ error: { code: 'E_LIMIT' } }] with status 429. *)
Lemma object_error_field_witness :
  ~ 200 <= 429 <= 299
  /\ Async.result
       (Fixture.answering 429
          (Js.VObject
             [(lit "error",
               Js.VObject [(lit "code", Js.VString (lit "E_LIMIT"))])]))
       (perform Fixture.client (domains_verify (lit "dom_123")))
     = Async.Rejected
         (Async.GatewayError
            (DomainFlowError.mk (lit "[object Object]") (lit "DomainFlowError")
               (Some 429)
               (Js.VObject
                  [(lit "error",
                    Js.VObject [(lit "code", Js.VString (lit "E_LIMIT"))])]))).
Proof.
  assert (Hrange : ~ 200 <= 429 <= 299) by lia.
  split; [exact Hrange|].
  apply (object_error_field
           (Fixture.answering 429
              (Js.VObject
                 [(lit "error",
                   Js.VObject [(lit "code", Js.VString (lit "E_LIMIT"))])]))
           Fixture.client (domains_verify (lit "dom_123")) 429
           [(lit "error", Js.VObject [(lit "code", Js.VString (lit "E_LIMIT"))])]
           [(lit "code", Js.VString (lit "E_LIMIT"))]);
    [reflexivity | exact Hrange | reflexivity].
Defined.

(** ** What is sent *)

(** X5. Every operation calls [fetch] exactly once, and the request it
    sends does not depend on what the network answers, to this call or
    to any other: there is no retry and no second request. *)
Theorem operation_sends_one_request (net net' : Async.network)
        (client : DomainFlow.t) (op : operation) :
  List.length (Async.calls net (perform client op)) = 1%nat
  /\ Async.calls net (perform client op) = Async.calls net' (perform client op).
Proof.
  rewrite !perform_calls. split; reflexivity.
Qed.

(** X6. A request whose method is [GET] or [DELETE] never has a body. *)
Theorem get_and_delete_have_no_body (net : Async.network) (client : DomainFlow.t)
        (op : operation) (url : js_string) (init : Fetch.RequestInit) :
  In (url, init) (Async.calls net (perform client op)) ->
  Fetch.method init = lit "GET" \/ Fetch.method init = lit "DELETE" ->
  Fetch.body init = None.
Proof.
  rewrite perform_calls. intros [Hcall | []] Hmethod.
  injection Hcall as _ <-.
  destruct op; cbn in Hmethod |- *; try reflexivity;
    destruct Hmethod as [Hmethod | Hmethod]; discriminate Hmethod.
Qed.

Lemma get_and_delete_have_no_body_witness :
  exists url init,
    In (url, init)
       (Async.calls Fixture.unreachable
          (perform Fixture.client (tenants_delete (lit "tenant_123"))))
    /\ Fetch.method init = lit "DELETE"
    /\ Fetch.body init = None.
Proof.
  exists (lit "https://api.domainflow.com/api/tenant/tenant_123").
  exists (Fetch.mk_init (lit "DELETE")
            [(lit "x-api-key", lit "test-api-key");
             (lit "Content-Type", lit "application/json")] None).
  assert (Hin : In (lit "https://api.domainflow.com/api/tenant/tenant_123",
                    Fetch.mk_init (lit "DELETE")
                      [(lit "x-api-key", lit "test-api-key");
                       (lit "Content-Type", lit "application/json")] None)
                   (Async.calls Fixture.unreachable
                      (perform Fixture.client (tenants_delete (lit "tenant_123")))))
    by (left; reflexivity).
  split; [exact Hin|]. split; [reflexivity|].
  apply (get_and_delete_have_no_body Fixture.unreachable Fixture.client
           (tenants_delete (lit "tenant_123")) _ _ Hin).
  right. reflexivity.
Defined.

Lemma JSON_stringify_defined (v : Js.value) :
  v <> Js.VUndefined -> Js.JSON_stringify v <> None.
Proof.
  destruct v as [| |[]| | | |]; cbn; intros H; congruence.
Qed.

(** X7. [tenants.update(id, updates)] sends one [PATCH]; it has a body
    exactly when [updates] is truthy, and the body is then the
    serialized [updates].  With [updates] [undefined], [null], [false],
    zero or the empty string the [PATCH] goes out without a body. *)
Theorem update_body_iff_truthy (net : Async.network) (client : DomainFlow.t)
        (tenantId : js_string) (updates : Js.value) :
  exists init : Fetch.RequestInit,
    Async.calls net (TenantsResource.update client tenantId updates)
    = [(DomainFlow.baseUrl client ++ lit "/api/tenant/" ++ tenantId, init)]
    /\ Fetch.method init = lit "PATCH"
    /\ (Fetch.body init <> None <-> Js.truthy updates = true)
    /\ (Js.truthy updates = true -> Fetch.body init = Js.JSON_stringify updates).
Proof.
  eexists. split; [unfold TenantsResource.update; apply request_calls|].
  split; [reflexivity|].
  unfold DomainFlow.request_init. cbn [Fetch.body].
  replace (Js.truthy (DomainFlow.default_null updates)) with (Js.truthy updates)
    by (destruct updates; reflexivity).
  destruct (Js.truthy updates) eqn:Htruthy.
  - assert (Hdefined : updates <> Js.VUndefined)
      by (intros ->; discriminate Htruthy).
    replace (DomainFlow.default_null updates) with updates
      by (destruct updates; cbn; congruence).
    split; [|reflexivity].
    split; [reflexivity|]. intros _. now apply JSON_stringify_defined.
  - split; [|discriminate]. split; [congruence | discriminate].
Qed.

(** [update('tenant_123', { name: 'New Name' })]. *)
Lemma update_body_iff_truthy_witness :
  Js.truthy (Js.VObject [(lit "name", Js.VString (lit "New Name"))]) = true
  /\ map (fun call => Fetch.body (snd call))
       (Async.calls Fixture.unreachable
          (TenantsResource.update Fixture.client (lit "tenant_123")
             (Js.VObject [(lit "name", Js.VString (lit "New Name"))])))
     = [Js.JSON_stringify (Js.VObject [(lit "name", Js.VString (lit "New Name"))])].
Proof.
  split; [reflexivity|].
  destruct (update_body_iff_truthy Fixture.unreachable Fixture.client
              (lit "tenant_123")
              (Js.VObject [(lit "name", Js.VString (lit "New Name"))]))
    as (init & Hcalls & _ & _ & Hbody).
  rewrite Hcalls. cbn [map snd]. rewrite (Hbody eq_refl). reflexivity.
Defined.

(** X8. [domains.add] sends a JSON object with the members [domain] and
    [upstream_url], in this order, followed by [tenant_id] only when a
    tenant was given: [upstreamUrl] and [tenantId] are renamed, and an
    absent [tenantId] leaves no member behind. *)
Theorem add_body (net : Async.network) (client : DomainFlow.t)
        (domain upstreamUrl : js_string) (tenantId : option js_string) :
  map (fun call => Fetch.body (snd call))
    (Async.calls net (DomainsResource.add client domain upstreamUrl tenantId))
  = [Some
       (lit "{"
          ++ Js.QuoteJSONString (lit "domain") ++ lit ":" ++ Js.QuoteJSONString domain
          ++ lit ","
          ++ Js.QuoteJSONString (lit "upstream_url") ++ lit ":"
          ++ Js.QuoteJSONString upstreamUrl
          ++ match tenantId with
             | Some tenant =>
                 lit "," ++ Js.QuoteJSONString (lit "tenant_id") ++ lit ":"
                   ++ Js.QuoteJSONString tenant
             | None => []
             end
          ++ lit "}")].
Proof.
  unfold DomainsResource.add. rewrite request_calls.
  cbn [map snd DomainFlow.default_null DomainFlow.request_init Fetch.body Js.truthy].
  do 2 f_equal.
  destruct tenantId as [tenant|];
    cbn [Js.JSON_stringify Js.of_option_string join];
    change (lit "{") with [123]; change (lit "}") with [125];
    change (lit ":") with [58]; change (lit ",") with [44];
    repeat rewrite <- app_assoc; reflexivity.
Qed.

(** X9. The [timeout] option has no effect on any operation: two clients
    that differ only in their timeout run the same computation, hence
    send the same request and settle the same way. *)
Theorem timeout_is_not_used (apiKey baseUrl : js_string) (timeout timeout' : Js.number)
        (op : operation) :
  perform (DomainFlow.mk apiKey baseUrl timeout) op
  = perform (DomainFlow.mk apiKey baseUrl timeout') op.
Proof. destruct op; reflexivity. Qed.

(** X10. The URL requested is the configured base address and the path
    put end to end, with nothing added, removed or escaped: the given
    [baseUrl] when it is a non-empty string, the production address
    otherwise. *)
Theorem request_url (net : Async.network) (key : js_string)
        (options : DomainFlow.Options) (client : DomainFlow.t) (op : operation) :
  DomainFlow.constructor (Some key) options = Async.Ret client ->
  map fst (Async.calls net (perform client op))
  = [match DomainFlow.opt_baseUrl options with
     | Some (c :: base) => c :: base
     | _ => lit "https://api.domainflow.com"
     end ++ snd (fst (wire op))].
Proof.
  intros Hnew. rewrite perform_calls. cbn [map fst]. do 2 f_equal.
  unfold DomainFlow.constructor in Hnew.
  destruct (negb (JsString.truthy key)); [discriminate|].
  injection Hnew as <-. cbn [DomainFlow.baseUrl].
  destruct (DomainFlow.opt_baseUrl options) as [[|c base]|]; reflexivity.
Qed.

(** A base address that ends with a slash gives a double slash. *)
Lemma request_url_witness :
  DomainFlow.constructor (Some (lit "test-api-key"))
    (DomainFlow.mk_options (Some (lit "http://localhost:3000/")) None)
  = Async.Ret
      (DomainFlow.mk (lit "test-api-key") (lit "http://localhost:3000/")
         DomainFlow.default_timeout)
  /\ map fst
       (Async.calls Fixture.unreachable
          (perform
             (DomainFlow.mk (lit "test-api-key") (lit "http://localhost:3000/")
                DomainFlow.default_timeout)
             (certificates_renew (lit "dom_123"))))
     = [lit "http://localhost:3000//api/certificates/dom_123/renew"].
Proof.
  split; [reflexivity|].
  apply (request_url Fixture.unreachable (lit "test-api-key")
           (DomainFlow.mk_options (Some (lit "http://localhost:3000/")) None)
           (DomainFlow.mk (lit "test-api-key") (lit "http://localhost:3000/")
              DomainFlow.default_timeout)
           (certificates_renew (lit "dom_123"))).
  reflexivity.
Defined.

(** X11. Identifiers are put into the path as they are, so an
    identifier can reach another route: [domains.get] with an identifier
    that ends in [/dns-instructions] is the same call as
    [domains.getDnsInstructions] with the identifier before it. *)
Theorem get_reaches_dns_instructions (client : DomainFlow.t) (domainId : js_string) :
  DomainsResource.get client (domainId ++ lit "/dns-instructions")
  = DomainsResource.getDnsInstructions client domainId.
Proof. reflexivity. Qed.

(** ** Signatures, once more *)

Lemma verifySignature_accepts_hmac_digest (payload secret : js_string) :
  WebhooksResource.verifySignature payload
    (Crypto.hmac_sha256_hex secret payload) secret = true.
Proof. rewrite verifySignature_unfold. apply strict_eq_refl. Qed.

(** X12. A signature that [verifySignature] accepts is 64 characters
    long and made of the digits [0-9a-f]: a signature with a prefix such
    as [sha256=], with surrounding white space, truncated, or in another
    encoding is rejected whatever the payload and the secret. *)
Theorem accepted_signature_shape (payload signature secret : js_string) :
  WebhooksResource.verifySignature payload signature secret = true ->
  List.length signature = 64%nat /\ forallb is_lower_hex signature = true.
Proof.
  rewrite verifySignature_unfold. intros H.
  apply strict_eq_true_iff in H. subst signature.
  split; [apply hmac_sha256_hex_length | apply hmac_sha256_hex_lower].
Qed.

Lemma accepted_signature_shape_witness :
  WebhooksResource.verifySignature
    (lit "what do ya want for nothing?")
    (lit "5bdcc146bf60754e6a042426089575c75a003f089d2739839dec58b964ec3843")
    (lit "Jefe") = true
  /\ List.length
       (lit "5bdcc146bf60754e6a042426089575c75a003f089d2739839dec58b964ec3843")
     = 64%nat.
Proof.
  assert (H : WebhooksResource.verifySignature
                (lit "what do ya want for nothing?")
                (lit "5bdcc146bf60754e6a042426089575c75a003f089d2739839dec58b964ec3843")
                (lit "Jefe") = true)
    by (vm_compute; reflexivity).
  split; [exact H|].
  exact (proj1 (accepted_signature_shape _ _ _ H)).
Defined.

(** X13. [verifySignature] reads the payload and the secret through
    their UTF-8 encoding only.  Two payloads with the same encoding, as
    two strings that differ in an unpaired surrogate are, cannot be told
    apart: a signature is accepted for one exactly when it is accepted
    for the other. *)
Theorem verifySignature_reads_utf8 (payload payload' signature secret secret' : js_string) :
  utf8_encode payload = utf8_encode payload' ->
  utf8_encode secret = utf8_encode secret' ->
  WebhooksResource.verifySignature payload signature secret
  = WebhooksResource.verifySignature payload' signature secret'.
Proof.
  intros Hpayload Hsecret. rewrite !verifySignature_unfold.
  unfold Crypto.hmac_sha256_hex. now rewrite Hpayload, Hsecret.
Qed.

(** The payloads [id=] followed by the lone surrogates U+D800 and
    U+DFFF are different strings with one signature. *)
Lemma verifySignature_reads_utf8_witness :
  lit "id=" ++ [0xD800] <> lit "id=" ++ [0xDFFF]
  /\ utf8_encode (lit "id=" ++ [0xD800]) = utf8_encode (lit "id=" ++ [0xDFFF])
  /\ WebhooksResource.verifySignature (lit "id=" ++ [0xDFFF])
       (Crypto.hmac_sha256_hex (lit "Jefe") (lit "id=" ++ [0xD800])) (lit "Jefe")
     = true.
Proof.
  split; [discriminate|]. split; [reflexivity|].
  rewrite (verifySignature_reads_utf8 (lit "id=" ++ [0xDFFF]) (lit "id=" ++ [0xD800])
             _ (lit "Jefe") (lit "Jefe")); [|reflexivity|reflexivity].
  apply verifySignature_accepts_hmac_digest.
Defined.

(** ** UTF-8 *)

Lemma lor_is_byte (a b : Z) : is_byte a -> is_byte b -> is_byte (Z.lor a b).
Proof.
  unfold is_byte. intros [Ha Ha'] [Hb Hb'].
  split; [apply Z.lor_nonneg; auto|].
  destruct (Z.eq_dec (Z.lor a b) 0) as [-> | Hnz]; [lia|].
  assert (Hpos : 0 < Z.lor a b) by (pose proof (proj2 (Z.lor_nonneg a b) (conj Ha Hb)); lia).
  change 256 with (2 ^ 8). apply Z.log2_lt_pow2; [exact Hpos|].
  rewrite Z.log2_lor by assumption.
  apply Z.max_lub_lt.
  - destruct (Z.eq_dec a 0) as [-> | Hane]; [cbn; lia|].
    apply Z.log2_lt_pow2; lia.
  - destruct (Z.eq_dec b 0) as [-> | Hbne]; [cbn; lia|].
    apply Z.log2_lt_pow2; lia.
Qed.

Lemma land_63_is_byte (x : Z) : 0 <= Z.land x 0x3F < 64.
Proof.
  change 0x3F with (Z.ones 6). rewrite Z.land_ones by lia.
  apply Z.mod_pos_bound. lia.
Qed.

Lemma shiftr_bound (x k bound : Z) :
  0 <= k -> 0 <= x < bound * 2 ^ k -> 0 <= Z.shiftr x k < bound.
Proof.
  intros Hk [Hx Hx']. rewrite Z.shiftr_div_pow2 by assumption.
  assert (0 < 2 ^ k) by (apply Z.pow_pos_nonneg; lia).
  split; [apply Z.div_pos; lia | apply Z.div_lt_upper_bound; lia].
Qed.

Lemma continuation_is_byte (x : Z) : is_byte (Z.lor 0x80 (Z.land x 0x3F)).
Proof.
  apply lor_is_byte; unfold is_byte; [lia|].
  pose proof (land_63_is_byte x). lia.
Qed.

(** The encoding of a scalar value is a sequence of bytes. *)
Lemma utf8_of_code_point_bytes (cp : Z) :
  0 <= cp < 0x110000 -> Forall is_byte (utf8_of_code_point cp).
Proof.
  intros Hcp. unfold utf8_of_code_point.
  destruct (Z.ltb_spec cp 0x80).
  { constructor; [unfold is_byte; lia | constructor]. }
  destruct (Z.ltb_spec cp 0x800).
  { constructor; [|constructor; [apply continuation_is_byte | constructor]].
    apply lor_is_byte; unfold is_byte; [lia|].
    pose proof (shiftr_bound cp 6 32). lia. }
  destruct (Z.ltb_spec cp 0x10000).
  { constructor;
      [|constructor; [apply continuation_is_byte
                     |constructor; [apply continuation_is_byte | constructor]]].
    apply lor_is_byte; unfold is_byte; [lia|].
    pose proof (shiftr_bound cp 12 16). lia. }
  constructor;
    [|constructor; [apply continuation_is_byte
                   |constructor; [apply continuation_is_byte
                                 |constructor; [apply continuation_is_byte
                                               | constructor]]]].
  apply lor_is_byte; unfold is_byte; [lia|].
  pose proof (shiftr_bound cp 18 5). lia.
Qed.

Lemma surrogate_bounds (c : Z) :
  (is_high_surrogate c = true -> 0xD800 <= c <= 0xDBFF)
  /\ (is_low_surrogate c = true -> 0xDC00 <= c <= 0xDFFF).
Proof.
  unfold is_high_surrogate, is_low_surrogate.
  rewrite !andb_true_iff, !Z.leb_le. tauto.
Qed.

(** Induction on strings that follows [utf8_encode]: a surrogate pair is
    consumed as a whole. *)
Lemma utf8_encode_ind (P : js_string -> Prop) :
  P [] ->
  (forall c d rest,
      is_high_surrogate c = true -> is_low_surrogate d = true ->
      P rest -> P (c :: d :: rest)) ->
  (forall c rest,
      (is_high_surrogate c = false
       \/ match rest with d :: _ => is_low_surrogate d = false | [] => True end) ->
      P rest -> P (c :: rest)) ->
  forall s, P s.
Proof.
  intros Hnil Hpair Hone s.
  assert (H : forall n s, (List.length s <= n)%nat -> P s).
  { induction n as [|n IH]; intros [|c rest] Hlen; cbn in Hlen; try exact Hnil; try lia.
    destruct (is_high_surrogate c) eqn:Hc.
    - destruct rest as [|d rest'].
      + apply Hone; [right; exact I | exact Hnil].
      + destruct (is_low_surrogate d) eqn:Hd.
        * apply Hpair; auto. apply IH. cbn in Hlen. lia.
        * apply Hone; [right; exact Hd | apply IH; lia].
    - apply Hone; [left; exact Hc | apply IH; lia]. }
  apply (H (List.length s)). lia.
Qed.

Lemma utf8_encode_pair (c d : Z) (rest : js_string) :
  is_high_surrogate c = true -> is_low_surrogate d = true ->
  utf8_encode (c :: d :: rest)
  = utf8_of_code_point (0x10000 + (c - 0xD800) * 0x400 + (d - 0xDC00))
      ++ utf8_encode rest.
Proof. intros Hc Hd. cbn [utf8_encode]. now rewrite Hc, Hd. Qed.

Lemma utf8_encode_single (c : Z) (rest : js_string) :
  (is_high_surrogate c = false
   \/ match rest with d :: _ => is_low_surrogate d = false | [] => True end) ->
  utf8_encode (c :: rest)
  = (if is_high_surrogate c || is_low_surrogate c
     then utf8_of_code_point replacement_character
     else utf8_of_code_point c)
      ++ utf8_encode rest.
Proof.
  intros H. cbn [utf8_encode].
  destruct (is_high_surrogate c) eqn:Hc; cbn [orb].
  - destruct H as [H | H]; [discriminate|].
    destruct rest as [|d rest']; [now rewrite app_nil_r|].
    now rewrite H.
  - destruct (is_low_surrogate c); reflexivity.
Qed.

(** A well-formed string encodes to bytes. *)
Lemma utf8_encode_bytes (s : js_string) :
  WellFormed.is_js_string s = true -> Forall is_byte (utf8_encode s).
Proof.
  induction s as [|c d rest Hc Hd IH|c rest Hsingle IH] using utf8_encode_ind;
    intros Hwf.
  - constructor.
  - rewrite utf8_encode_pair by assumption.
    apply Forall_app. split.
    + apply utf8_of_code_point_bytes.
      apply surrogate_bounds in Hc. apply surrogate_bounds in Hd. lia.
    + apply IH. cbn in Hwf. apply andb_true_iff in Hwf as [_ Hwf].
      now apply andb_true_iff in Hwf as [_ Hwf].
  - rewrite utf8_encode_single by assumption.
    cbn in Hwf. apply andb_true_iff in Hwf as [Hunit Hwf].
    apply Forall_app. split; [|now apply IH].
    destruct (is_high_surrogate c || is_low_surrogate c).
    + apply utf8_of_code_point_bytes. unfold replacement_character. lia.
    + apply utf8_of_code_point_bytes.
      unfold WellFormed.is_code_unit in Hunit.
      apply andb_true_iff in Hunit as [Hlo Hhi].
      apply Z.leb_le in Hlo. apply Z.ltb_lt in Hhi. lia.
Qed.

(** Encoding a concatenation: the parts are encoded one after the other
    unless the cut separates the two halves of a surrogate pair. *)
Lemma utf8_encode_app (s t : js_string) :
  match t with d :: _ => is_low_surrogate d = false | [] => True end ->
  utf8_encode (s ++ t) = utf8_encode s ++ utf8_encode t.
Proof.
  intros Ht.
  induction s as [|c d rest Hc Hd IH|c rest Hsingle IH] using utf8_encode_ind.
  - reflexivity.
  - cbn [app]. rewrite !utf8_encode_pair by assumption.
    now rewrite IH, app_assoc.
  - cbn [app]. rewrite (utf8_encode_single c rest Hsingle).
    rewrite utf8_encode_single.
    + now rewrite IH, app_assoc.
    + destruct Hsingle as [H | H]; [left; exact H|].
      right. destruct rest as [|d rest']; [exact Ht | exact H].
Qed.

Lemma utf8_encode_nuls (n : nat) : utf8_encode (repeat 0 n) = repeat 0 n.
Proof.
  induction n as [|n IH]; [reflexivity|].
  cbn [repeat]. rewrite utf8_encode_single by (left; reflexivity).
  cbn [orb]. now rewrite IH.
Qed.

Lemma key_block_of_nuls (key : list Z) (n : nat) :
  (List.length key + n <= Crypto.block_size)%nat ->
  Crypto.key_block_of (key ++ repeat 0 n) = Crypto.key_block_of key.
Proof.
  unfold Crypto.key_block_of, Crypto.block_size. intros Hlen.
  rewrite length_app, repeat_length.
  destruct (Nat.ltb_spec 64 (List.length key + n)); [lia|].
  destruct (Nat.ltb_spec 64 (List.length key)); [lia|].
  rewrite length_app, repeat_length, <- app_assoc, <- repeat_app.
  replace (n + (64 - (List.length key + n)))%nat with (64 - List.length key)%nat by lia.
  reflexivity.
Qed.

(** X14. The secret is zero-padded to the 64-byte block of HMAC, so NUL
    characters at its end do not count: as long as the padded secret
    still fits in the block, a secret and the same secret followed by
    NUL characters verify exactly the same signatures. *)
Theorem secret_trailing_nuls (payload signature secret : js_string) (n : nat) :
  (List.length (utf8_encode secret) + n <= 64)%nat ->
  WebhooksResource.verifySignature payload signature (secret ++ repeat 0 n)
  = WebhooksResource.verifySignature payload signature secret.
Proof.
  intros Hlen. rewrite !verifySignature_unfold.
  unfold Crypto.hmac_sha256_hex, Crypto.HMAC_SHA256.
  rewrite utf8_encode_app by (destruct n; [exact I | reflexivity]).
  rewrite utf8_encode_nuls, key_block_of_nuls by exact Hlen.
  reflexivity.
Qed.

Lemma secret_trailing_nuls_witness :
  (List.length (utf8_encode (lit "Jefe")) + 1 <= 64)%nat
  /\ WebhooksResource.verifySignature
       (lit "what do ya want for nothing?")
       (lit "5bdcc146bf60754e6a042426089575c75a003f089d2739839dec58b964ec3843")
       (lit "Jefe" ++ [0]) = true.
Proof.
  assert (Hlen : (List.length (utf8_encode (lit "Jefe")) + 1 <= 64)%nat)
    by (cbn; lia).
  split; [exact Hlen|].
  rewrite (secret_trailing_nuls _ _ (lit "Jefe") 1 Hlen).
  vm_compute. reflexivity.
Defined.

(** ** The characters of a query string *)

Lemma upper_hex_digit_unreserved (n : Z) :
  0 <= n < 16 -> URLSearchParams.is_unreserved (URLSearchParams.upper_hex_digit n) = true.
Proof.
  intros Hn. unfold URLSearchParams.upper_hex_digit, URLSearchParams.is_unreserved,
    is_ascii_alpha, is_ascii_lower, is_ascii_upper, is_ascii_digit.
  rewrite !orb_true_iff, !andb_true_iff, !Z.leb_le, !Z.eqb_eq.
  destruct (Z.ltb_spec n 10); lia.
Qed.

Lemma encode_byte_safe (b : Z) :
  is_byte b -> forallb WellFormed.is_url_safe (URLSearchParams.encode_byte b) = true.
Proof.
  intros Hb. unfold URLSearchParams.encode_byte, WellFormed.is_url_safe.
  destruct (Z.eqb_spec b 0x20); [reflexivity|].
  destruct (URLSearchParams.is_unreserved b) eqn:Hu.
  - cbn [forallb]. now rewrite Hu.
  - cbn [forallb]. unfold is_byte in Hb.
    rewrite !upper_hex_digit_unreserved; [reflexivity| |].
    + change 15 with (Z.ones 4). rewrite Z.land_ones by lia.
      apply Z.mod_pos_bound. lia.
    + apply (shiftr_bound b 4 16); lia.
Qed.

Lemma form_urlencode_url_safe (v : js_string) :
  WellFormed.is_js_string v = true ->
  forallb WellFormed.is_url_safe (URLSearchParams.form_urlencode v) = true.
Proof.
  intros Hwf. apply utf8_encode_bytes in Hwf.
  unfold URLSearchParams.form_urlencode.
  induction Hwf as [|b bytes Hb _ IH]; [reflexivity|].
  cbn [flat_map]. rewrite forallb_app, IH, andb_true_r.
  now apply encode_byte_safe.
Qed.

(** X15. Written by the serializer, a well-formed value consists of
    letters, digits, [*], [-], [.], [_], [+] and [%] only: no [&], [=],
    [?], [#], [/] or space survives in it. *)
Theorem form_urlencode_safe (v : js_string) :
  WellFormed.is_js_string v = true ->
  forallb WellFormed.is_url_safe (URLSearchParams.form_urlencode v) = true
  /\ ~ In WellFormed.ampersand (URLSearchParams.form_urlencode v)
  /\ ~ In WellFormed.equals_sign (URLSearchParams.form_urlencode v)
  /\ ~ In WellFormed.question_mark (URLSearchParams.form_urlencode v)
  /\ ~ In 0x23 (URLSearchParams.form_urlencode v)
  /\ ~ In 0x2F (URLSearchParams.form_urlencode v)
  /\ ~ In 0x20 (URLSearchParams.form_urlencode v).
Proof.
  intros Hwf. pose proof (form_urlencode_url_safe v Hwf) as Hsafe.
  split; [exact Hsafe|].
  rewrite forallb_forall in Hsafe.
  repeat split; intros Hin; apply Hsafe in Hin; discriminate Hin.
Qed.

Lemma form_urlencode_safe_witness :
  WellFormed.is_js_string (lit "a&b=c d?#/" ++ [0xE9; 0xD83D; 0xDE00]) = true
  /\ URLSearchParams.form_urlencode (lit "a&b=c d?#/" ++ [0xE9; 0xD83D; 0xDE00])
     = lit "a%26b%3Dc+d%3F%23%2F%C3%A9%F0%9F%98%80"
  /\ forallb WellFormed.is_url_safe
       (URLSearchParams.form_urlencode (lit "a&b=c d?#/" ++ [0xE9; 0xD83D; 0xDE00]))
     = true.
Proof.
  split; [reflexivity|]. split; [reflexivity|].
  apply (form_urlencode_safe (lit "a&b=c d?#/" ++ [0xE9; 0xD83D; 0xDE00])).
  reflexivity.
Defined.

Lemma count_app (c : Z) (s t : js_string) :
  WellFormed.count c (s ++ t) = (WellFormed.count c s + WellFormed.count c t)%nat.
Proof. unfold WellFormed.count. now rewrite filter_app, length_app. Qed.

Lemma count_safe (c : Z) (s : js_string) :
  forallb WellFormed.is_url_safe s = true ->
  WellFormed.is_url_safe c = false ->
  WellFormed.count c s = 0%nat.
Proof.
  intros Hs Hc. unfold WellFormed.count.
  induction s as [|x s IH]; [reflexivity|].
  cbn [forallb] in Hs. apply andb_true_iff in Hs as [Hx Hs].
  cbn [filter]. destruct (Z.eqb_spec x c) as [-> | _]; [congruence|].
  now apply IH.
Qed.

Lemma count_form_urlencode (c : Z) (v : js_string) :
  WellFormed.is_js_string v = true ->
  WellFormed.is_url_safe c = false ->
  WellFormed.count c (URLSearchParams.form_urlencode v) = 0%nat.
Proof. intros Hv Hc. apply count_safe; [now apply form_urlencode_url_safe | exact Hc]. Qed.

(** X16. Filter values cannot add a parameter to the query of
    [list], nor cut one short.  For well-formed values, the path has one
    [=] for each non-empty filter, one [&] between two of them, and one
    [?] when there is at least one. *)
Theorem list_path_separators (params : DomainsResource.ListParams) :
  WellFormed.option_is_js_string (DomainsResource.tenantId params) = true ->
  WellFormed.option_is_js_string (DomainsResource.status params) = true ->
  WellFormed.count WellFormed.equals_sign (DomainsResource.list_path params)
  = List.length (DomainsResource.list_queryParams params)
  /\ WellFormed.count WellFormed.ampersand (DomainsResource.list_path params)
     = Nat.pred (List.length (DomainsResource.list_queryParams params))
  /\ WellFormed.count WellFormed.question_mark (DomainsResource.list_path params)
     = Nat.min 1 (List.length (DomainsResource.list_queryParams params))
  /\ (List.length (DomainsResource.list_queryParams params) <= 2)%nat.
Proof.
  destruct params as [tenantId status].
  cbn [DomainsResource.tenantId DomainsResource.status].
  intros Htenant Hstatus. rewrite list_path_cases.
  unfold Spec.filters, DomainsResource.list_queryParams, URLSearchParams.append,
    URLSearchParams.new.
  cbn [DomainsResource.tenantId DomainsResource.status].
  assert (Hzero : forall c v,
             WellFormed.is_js_string v = true ->
             WellFormed.is_url_safe c = false ->
             WellFormed.count c (URLSearchParams.form_urlencode v) = 0%nat)
    by (intros; now apply count_form_urlencode).
  destruct tenantId as [[|t0 t]|], status as [[|s0 s]|];
    cbn [JsString.truthy app map filter snd fst join Spec.query List.length
           Nat.pred Nat.min WellFormed.option_is_js_string] in *;
    rewrite ?count_app, ?Hzero by (assumption || reflexivity);
    (split; [reflexivity|split; [reflexivity|split; [reflexivity|lia]]]).
Qed.

(** [list({ status: 'verified&tenant_id=other' })] has one parameter. *)
Lemma list_path_separators_witness :
  WellFormed.option_is_js_string (Some (lit "verified&tenant_id=other")) = true
  /\ DomainsResource.list_path
       (DomainsResource.mk_params None (Some (lit "verified&tenant_id=other")))
     = lit "/api/domain?status=verified%26tenant_id%3Dother"
  /\ WellFormed.count WellFormed.equals_sign
       (DomainsResource.list_path
          (DomainsResource.mk_params None (Some (lit "verified&tenant_id=other"))))
     = 1%nat.
Proof.
  split; [reflexivity|]. split; [reflexivity|].
  exact (proj1 (list_path_separators
                  (DomainsResource.mk_params None (Some (lit "verified&tenant_id=other")))
                  eq_refl eq_refl)).
Defined.

(** ** Bodies of the create calls *)

Lemma JSON_stringify_strings (strings : list js_string) :
  Js.JSON_stringify (Js.VArray (map Js.VString strings))
  = Some (lit "[" ++ join (lit ",") (map Js.QuoteJSONString strings) ++ lit "]").
Proof.
  cbn [Js.JSON_stringify].
  match goal with
  | |- Some (_ ++ join _ ?items ++ _) = Some (_ ++ join _ ?quoted ++ _) =>
      assert (Hitems : items = quoted); [|now rewrite Hitems]
  end.
  induction strings as [|s strings IH]; [reflexivity|].
  cbn [map Js.JSON_stringify]. now rewrite IH.
Qed.

(** X17. [tenants.create] sends the members [name] and [upstream_url];
    [webhooks.create] sends [url], then [events] as an array of strings
    in the order given, then [tenant_id] only when a tenant was given. *)
Theorem create_bodies (net : Async.network) (client : DomainFlow.t)
        (name upstreamUrl url : js_string) (events : list js_string)
        (tenantId : option js_string) :
  map (fun call => Fetch.body (snd call))
    (Async.calls net (TenantsResource.create client name upstreamUrl))
  = [Some
       (lit "{"
          ++ Js.QuoteJSONString (lit "name") ++ lit ":" ++ Js.QuoteJSONString name
          ++ lit ","
          ++ Js.QuoteJSONString (lit "upstream_url") ++ lit ":"
          ++ Js.QuoteJSONString upstreamUrl
          ++ lit "}")]
  /\ map (fun call => Fetch.body (snd call))
       (Async.calls net (WebhooksResource.create client url events tenantId))
     = [Some
          (lit "{"
             ++ Js.QuoteJSONString (lit "url") ++ lit ":" ++ Js.QuoteJSONString url
             ++ lit ","
             ++ Js.QuoteJSONString (lit "events") ++ lit ":"
             ++ (lit "[" ++ join (lit ",") (map Js.QuoteJSONString events) ++ lit "]")
             ++ match tenantId with
                | Some tenant =>
                    lit "," ++ Js.QuoteJSONString (lit "tenant_id") ++ lit ":"
                      ++ Js.QuoteJSONString tenant
                | None => []
                end
             ++ lit "}")].
Proof.
  split.
  - unfold TenantsResource.create. rewrite request_calls.
    cbn [map snd DomainFlow.default_null DomainFlow.request_init Fetch.body Js.truthy].
    do 2 f_equal. cbn [Js.JSON_stringify join].
    change (lit "{") with [123]; change (lit "}") with [125];
      change (lit ":") with [58]; change (lit ",") with [44].
    repeat rewrite <- app_assoc. reflexivity.
  - unfold WebhooksResource.create. rewrite request_calls.
    cbn [map snd DomainFlow.default_null DomainFlow.request_init Fetch.body Js.truthy].
    do 2 f_equal.
    pose proof (JSON_stringify_strings events) as Hevents.
    remember (Js.VArray (map Js.VString events)) as array eqn:Harray.
    clear Harray.
    destruct tenantId as [tenant|];
      cbn [Js.JSON_stringify Js.of_option_string];
      rewrite Hevents;
      cbn [join];
      change (lit "{") with [123]; change (lit "}") with [125];
      change (lit ":") with [58]; change (lit ",") with [44];
      change (lit "[") with [91]; change (lit "]") with [93];
      repeat rewrite <- app_assoc; reflexivity.
Qed.
